(** * BaseGuardian: threat-report and reputation ledger

    A shallow embedding of [contracts/BaseGuardian.sol] (Solidity ^0.8.19)
    and the properties of its reporting / validation / reputation engine.

    Conventions of the embedding:
    - [uint256] is [N]; arithmetic is the checked arithmetic of Solidity 0.8:
      an addition above [MAX_UINT256], a subtraction below zero and a division
      by zero abort the call with a [Panic].
    - a [mapping] is a [gmap] read through [rd], which returns the zero value
      of the value type for a key that was never written.
    - a call either returns a new state or aborts; an aborted call leaves the
      ledger as it was ([exec]). *)

From Stdlib Require Import NArith Lia.
From stdpp Require Import gmap strings list.

Local Open Scope N_scope.

(** ** Words, identities and failures *)

Abbreviation uint256 := N (only parsing).
Abbreviation address := N (only parsing).
Abbreviation bytes32 := N (only parsing).

Definition MAX_UINT256 : N := 2 ^ 256 - 1.

Definition PANIC_ARITHMETIC : N := 17.      (* 0x11 *)
Definition PANIC_DIV_BY_ZERO : N := 18.     (* 0x12 *)
Definition PANIC_ENUM_CONVERSION : N := 33. (* 0x21 *)
Definition PANIC_ARRAY_INDEX : N := 50.     (* 0x32 *)

Inductive error : Type :=
| Revert (reason : string)   (* a failed [require(cond, reason)] *)
| Panic (code : N)           (* a failed compiler-inserted check *)
| TransferFailed.            (* [transfer] to a recipient that refuses it *)

Inductive result (A : Type) : Type :=
| Ok (a : A)
| Err (e : error).
Arguments Ok {A} a.
Arguments Err {A} e.

#[global] Instance result_ret : MRet result := fun A a => Ok a.
#[global] Instance result_bind : MBind result := fun A B f m =>
  match m with
  | Ok a => f a
  | Err e => Err e
  end.

Definition require (cond : bool) (reason : string) : result unit :=
  if cond then Ok tt else Err (Revert reason).

Definition checked_add (a b : uint256) : result uint256 :=
  if a + b <=? MAX_UINT256 then Ok (a + b) else Err (Panic PANIC_ARITHMETIC).

Definition checked_sub (a b : uint256) : result uint256 :=
  if b <=? a then Ok (a - b) else Err (Panic PANIC_ARITHMETIC).

Definition checked_div (a b : uint256) : result uint256 :=
  if b =? 0 then Err (Panic PANIC_DIV_BY_ZERO) else Ok (a / b).

(** ** Enumerations *)

Inductive ThreatType : Type :=
| HONEYPOT
| RUGPULL
| MEV_VULNERABILITY
| SANDWICH_RISK
| PHISHING
| MALICIOUS_CONTRACT.

Inductive RiskLevel : Type :=
| SAFE        (* 0-30 *)
| RISKY       (* 31-70 *)
| DANGEROUS.  (* 71-100 *)

#[global] Instance ThreatType_eq_dec : EqDecision ThreatType.
Proof. solve_decision. Defined.

#[global] Instance RiskLevel_eq_dec : EqDecision RiskLevel.
Proof. solve_decision. Defined.

(** The ordinal of an enumeration member, as the ABI encodes it. *)
Definition ThreatType_ordinal (t : ThreatType) : N :=
  match t with
  | HONEYPOT => 0
  | RUGPULL => 1
  | MEV_VULNERABILITY => 2
  | SANDWICH_RISK => 3
  | PHISHING => 4
  | MALICIOUS_CONTRACT => 5
  end.

(** The conversion [ThreatType(i)]: it panics outside the enumeration. *)
Definition ThreatType_of_uint (i : uint256) : result ThreatType :=
  match i with
  | 0 => Ok HONEYPOT
  | 1 => Ok RUGPULL
  | 2 => Ok MEV_VULNERABILITY
  | 3 => Ok SANDWICH_RISK
  | 4 => Ok PHISHING
  | 5 => Ok MALICIOUS_CONTRACT
  | _ => Err (Panic PANIC_ENUM_CONVERSION)
  end.

Definition all_threat_types : list ThreatType :=
  [HONEYPOT; RUGPULL; MEV_VULNERABILITY; SANDWICH_RISK; PHISHING;
   MALICIOUS_CONTRACT].

(** ** Structs *)

Record ThreatReport : Type := mkThreatReport {
  reporter : address;
  threatType : ThreatType;
  riskScore : uint256;
  evidence : string;
  timestamp : uint256;
  validated : bool;
  validationCount : uint256
}.

Record ContractReputation : Type := mkContractReputation {
  totalScore : uint256;
  reportCount : uint256;
  validationScore : uint256;
  isVerified : bool;
  lastUpdated : uint256;
  threatCounts : ThreatType -> uint256
}.

Record SecurityMetrics : Type := mkSecurityMetrics {
  totalContracts : uint256;
  flaggedContracts : uint256;
  validatedReports : uint256;
  falsePositives : uint256
}.

Inductive Event : Type :=
| ThreatReported (who target : address) (t : ThreatType) (score : uint256)
    (ev : string)
| ReputationUpdated (target : address) (newScore count : uint256)
| ValidatorAdded (v : address)
| ValidatorRemoved (v : address)
| OwnershipTransferred (previous next : address).

(** ** Mappings with Solidity's zero default *)

Class Zero (V : Type) : Type := zero : V.

#[global] Instance uint256_zero : Zero N := 0.
#[global] Instance bool_zero : Zero bool := false.
#[global] Instance ThreatReport_zero : Zero ThreatReport :=
  mkThreatReport 0 HONEYPOT 0 EmptyString 0 false 0.
#[global] Instance ContractReputation_zero : Zero ContractReputation :=
  mkContractReputation 0 0 0 false 0 (fun _ => 0).

Definition rd {V : Type} `{Zero V} (m : gmap N V) (k : N) : V :=
  default zero (m !! k).

(** [threatCounts[t] = v] on the nested mapping of a reputation entry. *)
Definition set_count (f : ThreatType -> uint256) (t : ThreatType)
    (v : uint256) : ThreatType -> uint256 :=
  fun t' => if decide (t = t') then v else f t'.

(** ** Contract storage *)

Record State : Type := mkState {
  contractReputations : gmap N ContractReputation;
  threatReports : gmap N ThreatReport;
  validators : gmap N bool;
  reporterScores : gmap N N;
  metrics : SecurityMetrics;
  reportIdCounter : uint256;
  reportFee : uint256;
  validationReward : uint256;
  owner : address;          (* Ownable._owner *)
  balance : uint256;        (* address(this).balance *)
  events : list Event       (* the log, oldest first *)
}.

Definition MAX_RISK_SCORE : uint256 := 100.
Definition MIN_VALIDATOR_SCORE : uint256 := 75.

(** What a call sees of the chain: the caller, the block time, and which
    accounts accept a plain [transfer] (an externally owned account does, a
    contract whose [receive] is missing, reverts, or needs more than the
    2300 gas stipend does not). *)
Record Env : Type := mkEnv {
  msg_sender : address;
  block_timestamp : uint256;
  accepts_transfer : address -> bool
}.

(** ** Views *)

(** A [for (uint256 i = lo; i < lo + n; i++)] loop threading [acc]. *)
Fixpoint for_range {A : Type} (lo : N) (n : nat)
    (body : N -> A -> result A) (acc : A) : result A :=
  match n with
  | O => Ok acc
  | S n' => acc' ← body lo acc; for_range (lo + 1) n' body acc'
  end.

(** [arr[i] = v] on a memory array: out of range panics. *)
Definition array_set {A : Type} (arr : list A) (i : uint256) (v : A)
    : result (list A) :=
  if i <? N.of_nat (length arr)
  then Ok (<[N.to_nat i := v]> arr)
  else Err (Panic PANIC_ARRAY_INDEX).

Definition _getReportedThreats (s : State) (_contractAddress : address)
    : result (list ThreatType) :=
  let reputation := rd (contractReputations s) _contractAddress in
  (* Count non-zero threat types *)
  count ← for_range 0 6 (fun i count =>
    t ← ThreatType_of_uint i;
    if 0 <? threatCounts reputation t then checked_add count 1 else Ok count) 0;
  (* Build array of reported threats *)
  let threats := replicate (N.to_nat count) HONEYPOT in
  '(threats, _) ← for_range 0 6 (fun i '(threats, index) =>
    t ← ThreatType_of_uint i;
    if 0 <? threatCounts reputation t then
      threats' ← array_set threats index t;
      index' ← checked_add index 1;
      Ok (threats', index')
    else Ok (threats, index)) (threats, 0);
  Ok threats.

Record RiskAnalysis : Type := mkRiskAnalysis {
  ra_riskLevel : RiskLevel;
  ra_riskScore : uint256;
  ra_reportCount : uint256;
  ra_threatTypes : list ThreatType
}.

Definition getRiskAnalysis (s : State) (_contractAddress : address)
    : result RiskAnalysis :=
  let reputation := rd (contractReputations s) _contractAddress in
  let reportCount := reportCount reputation in
  riskScore ← (if 0 <? reportCount
               then checked_div (totalScore reputation) reportCount
               else Ok 0);
  (* Determine risk level *)
  let riskLevel :=
    if riskScore <=? 30 then SAFE
    else if riskScore <=? 70 then RISKY
    else DANGEROUS in
  (* Get threat types with reports *)
  threatTypes ← _getReportedThreats s _contractAddress;
  Ok (mkRiskAnalysis riskLevel riskScore reportCount threatTypes).

Definition getSecurityMetrics (s : State) : SecurityMetrics := metrics s.

Definition isHighRiskContract (s : State) (_contractAddress : address)
    : result (bool * uint256) :=
  let reputation := rd (contractReputations s) _contractAddress in
  riskScore ← (if 0 <? reportCount reputation
               then checked_div (totalScore reputation) (reportCount reputation)
               else Ok 0);
  Ok (70 <? riskScore, riskScore).

(** ** Storage writes *)

Definition set_contractReputations (v : gmap N ContractReputation) (s : State)
    : State :=
  mkState v (threatReports s) (validators s) (reporterScores s) (metrics s)
    (reportIdCounter s) (reportFee s) (validationReward s) (owner s)
    (balance s) (events s).

Definition set_threatReports (v : gmap N ThreatReport) (s : State) : State :=
  mkState (contractReputations s) v (validators s) (reporterScores s)
    (metrics s) (reportIdCounter s) (reportFee s) (validationReward s)
    (owner s) (balance s) (events s).

Definition set_validators (v : gmap N bool) (s : State) : State :=
  mkState (contractReputations s) (threatReports s) v (reporterScores s)
    (metrics s) (reportIdCounter s) (reportFee s) (validationReward s)
    (owner s) (balance s) (events s).

Definition set_reporterScores (v : gmap N N) (s : State) : State :=
  mkState (contractReputations s) (threatReports s) (validators s) v
    (metrics s) (reportIdCounter s) (reportFee s) (validationReward s)
    (owner s) (balance s) (events s).

Definition set_metrics (v : SecurityMetrics) (s : State) : State :=
  mkState (contractReputations s) (threatReports s) (validators s)
    (reporterScores s) v (reportIdCounter s) (reportFee s)
    (validationReward s) (owner s) (balance s) (events s).

Definition set_reportIdCounter (v : uint256) (s : State) : State :=
  mkState (contractReputations s) (threatReports s) (validators s)
    (reporterScores s) (metrics s) v (reportFee s) (validationReward s)
    (owner s) (balance s) (events s).

Definition set_fees (fee reward : uint256) (s : State) : State :=
  mkState (contractReputations s) (threatReports s) (validators s)
    (reporterScores s) (metrics s) (reportIdCounter s) fee reward (owner s)
    (balance s) (events s).

Definition set_owner (v : address) (s : State) : State :=
  mkState (contractReputations s) (threatReports s) (validators s)
    (reporterScores s) (metrics s) (reportIdCounter s) (reportFee s)
    (validationReward s) v (balance s) (events s).

Definition set_balance (v : uint256) (s : State) : State :=
  mkState (contractReputations s) (threatReports s) (validators s)
    (reporterScores s) (metrics s) (reportIdCounter s) (reportFee s)
    (validationReward s) (owner s) v (events s).

Definition emit (ev : Event) (s : State) : State :=
  mkState (contractReputations s) (threatReports s) (validators s)
    (reporterScores s) (metrics s) (reportIdCounter s) (reportFee s)
    (validationReward s) (owner s) (balance s) (events s ++ [ev]).

Definition set_totalContracts (v : uint256) (m : SecurityMetrics)
    : SecurityMetrics :=
  mkSecurityMetrics v (flaggedContracts m) (validatedReports m)
    (falsePositives m).

Definition set_flaggedContracts (v : uint256) (m : SecurityMetrics)
    : SecurityMetrics :=
  mkSecurityMetrics (totalContracts m) v (validatedReports m)
    (falsePositives m).

Definition set_validatedReports (v : uint256) (m : SecurityMetrics)
    : SecurityMetrics :=
  mkSecurityMetrics (totalContracts m) (flaggedContracts m) v
    (falsePositives m).

Definition set_falsePositives (v : uint256) (m : SecurityMetrics)
    : SecurityMetrics :=
  mkSecurityMetrics (totalContracts m) (flaggedContracts m)
    (validatedReports m) v.

(** ** Internal functions *)

Definition _updateReporterScore (s : State) (_reporter : address)
    (_positive : bool) : result State :=
  let score := rd (reporterScores s) _reporter in
  if _positive then
    if score <? 100 then
      v ← checked_add score 1;
      Ok (set_reporterScores (<[_reporter := v]> (reporterScores s)) s)
    else Ok s
  else
    if 0 <? score then
      v ← checked_sub score 5; (* Larger penalty for false reports *)
      Ok (set_reporterScores (<[_reporter := v]> (reporterScores s)) s)
    else Ok s.

Definition _isAlreadyFlagged (s : State) (_contractAddress : address)
    : result bool :=
  let reputation := rd (contractReputations s) _contractAddress in
  q ← checked_div (totalScore reputation) (reportCount reputation);
  Ok (70 <? q).

Definition _updateContractReputation (e : Env) (s : State)
    (_contractAddress : address) (_threatType : ThreatType)
    (_riskScore : uint256) : result State :=
  let reputation := rd (contractReputations s) _contractAddress in
  s1 ← (if reportCount reputation =? 0 then
          n ← checked_add (totalContracts (metrics s)) 1;
          Ok (set_metrics (set_totalContracts n (metrics s)) s)
        else Ok s);
  total ← checked_add (totalScore reputation) _riskScore;
  count ← checked_add (reportCount reputation) 1;
  tcount ← checked_add (threatCounts reputation _threatType) 1;
  let reputation' :=
    mkContractReputation total count (validationScore reputation)
      (isVerified reputation) (block_timestamp e)
      (set_count (threatCounts reputation) _threatType tcount) in
  let s2 :=
    set_contractReputations
      (<[_contractAddress := reputation']> (contractReputations s1)) s1 in
  (* Flag as high risk if score is above threshold *)
  avgScore ← checked_div total count;
  flag ← (if 70 <? avgScore then
            already ← _isAlreadyFlagged s2 _contractAddress;
            Ok (negb already)
          else Ok false);
  s3 ← (if flag : bool then
          n ← checked_add (flaggedContracts (metrics s2)) 1;
          Ok (set_metrics (set_flaggedContracts n (metrics s2)) s2)
        else Ok s2);
  Ok (emit (ReputationUpdated _contractAddress avgScore count) s3).

(** ** External functions *)

Section Ledger.

(** [keccak256(abi.encodePacked(sender, target, threatType, time, counter))]:
    the hash is a parameter of the development. *)
Variable reportIdOf : address -> address -> ThreatType -> uint256 -> uint256
  -> bytes32.

Definition ONLY_OWNER : string := "Ownable: caller is not the owner".

Definition onlyOwner (e : Env) (s : State) : result unit :=
  require (msg_sender e =? owner s) ONLY_OWNER.

Definition constructor (e : Env) : State :=
  mkState ∅ ∅
    (<[msg_sender e := true]> ∅)
    (<[msg_sender e := 100]> ∅)
    (mkSecurityMetrics 0 0 0 0)
    0
    1000000000000000   (* 0.001 ether *)
    500000000000000    (* 0.0005 ether *)
    (msg_sender e)
    0
    [OwnershipTransferred 0 (msg_sender e)].

(** [reportThreat] is payable: [value] is credited to the contract before the
    body runs; the modifier [validRiskScore] runs before the body. *)
Definition reportThreat (e : Env) (s : State) (_targetContract : address)
    (_threatType : ThreatType) (_riskScore : uint256) (_evidence : string)
    (value : uint256) : result State :=
  let s := set_balance (balance s + value) s in
  _ ← require (_riskScore <=? MAX_RISK_SCORE) "Risk score exceeds maximum";
  _ ← require (reportFee s <=? value) "Insufficient fee";
  _ ← require (negb (_targetContract =? 0)) "Invalid contract address";
  _ ← require (0 <? N.of_nat (String.length _evidence)) "Evidence required";
  let counter := reportIdCounter s in
  counter' ← checked_add counter 1;
  let reportId :=
    reportIdOf (msg_sender e) _targetContract _threatType (block_timestamp e)
      counter in
  let s := set_reportIdCounter counter' s in
  let s :=
    set_threatReports
      (<[reportId := mkThreatReport (msg_sender e) _threatType _riskScore
                       _evidence (block_timestamp e) false 0]>
         (threatReports s)) s in
  (* Update contract reputation *)
  s ← _updateContractReputation e s _targetContract _threatType _riskScore;
  (* Update reporter score *)
  s ← _updateReporterScore s (msg_sender e) true;
  Ok (emit (ThreatReported (msg_sender e) _targetContract _threatType
              _riskScore _evidence) s).

Definition validateReport (e : Env) (s : State) (_reportId : bytes32)
    (_isValid : bool) : result State :=
  _ ← require (rd (validators s) (msg_sender e)) "Not authorized validator";
  let report := rd (threatReports s) _reportId in
  _ ← require (negb (reporter report =? 0)) "Report does not exist";
  _ ← require (negb (validated report)) "Report already validated";
  vcount ← checked_add (validationCount report) 1;
  let report' :=
    mkThreatReport (reporter report) (threatType report) (riskScore report)
      (evidence report) (timestamp report) true vcount in
  let s := set_threatReports (<[_reportId := report']> (threatReports s)) s in
  s ← (if _isValid then
         n ← checked_add (validatedReports (metrics s)) 1;
         (* Reward the reporter *)
         _updateReporterScore
           (set_metrics (set_validatedReports n (metrics s)) s)
           (reporter report') true
       else
         n ← checked_add (falsePositives (metrics s)) 1;
         (* Penalize the reporter *)
         _updateReporterScore
           (set_metrics (set_falsePositives n (metrics s)) s)
           (reporter report') false);
  (* Send validation reward to validator *)
  if validationReward s <=? balance s then
    if accepts_transfer e (msg_sender e)
    then Ok (set_balance (balance s - validationReward s) s)
    else Err TransferFailed
  else Ok s.

Definition addValidator (e : Env) (s : State) (_validator : address)
    : result State :=
  _ ← onlyOwner e s;
  _ ← require (negb (_validator =? 0)) "Invalid validator address";
  _ ← require (negb (rd (validators s) _validator)) "Already a validator";
  let s := set_validators (<[_validator := true]> (validators s)) s in
  (* Start with perfect score *)
  let s := set_reporterScores (<[_validator := 100]> (reporterScores s)) s in
  Ok (emit (ValidatorAdded _validator) s).

Definition removeValidator (e : Env) (s : State) (_validator : address)
    : result State :=
  _ ← onlyOwner e s;
  _ ← require (rd (validators s) _validator) "Not a validator";
  let s := set_validators (<[_validator := false]> (validators s)) s in
  Ok (emit (ValidatorRemoved _validator) s).

Definition updateFees (e : Env) (s : State) (_reportFee : uint256)
    (_validationReward : uint256) : result State :=
  _ ← onlyOwner e s;
  Ok (set_fees _reportFee _validationReward s).

Definition emergencyWithdraw (e : Env) (s : State) : result State :=
  _ ← onlyOwner e s;
  if accepts_transfer e (owner s)
  then Ok (set_balance 0 s)
  else Err TransferFailed.

(** [receive() external payable {}] *)
Definition receive (s : State) (value : uint256) : result State :=
  Ok (set_balance (balance s + value) s).

(** The two entry points inherited from the imported [Ownable]. *)
Definition transferOwnership (e : Env) (s : State) (newOwner : address)
    : result State :=
  _ ← onlyOwner e s;
  _ ← require (negb (newOwner =? 0)) "Ownable: new owner is the zero address";
  Ok (emit (OwnershipTransferred (owner s) newOwner) (set_owner newOwner s)).

Definition renounceOwnership (e : Env) (s : State) : result State :=
  _ ← onlyOwner e s;
  Ok (emit (OwnershipTransferred (owner s) 0) (set_owner 0 s)).

(** ** Transactions *)

Inductive Call : Type :=
| ReportThreat (target : address) (t : ThreatType) (score : uint256)
    (ev : string) (value : uint256)
| ValidateReport (id : bytes32) (isValid : bool)
| AddValidator (v : address)
| RemoveValidator (v : address)
| UpdateFees (fee reward : uint256)
| EmergencyWithdraw
| Receive (value : uint256)
| TransferOwnership (newOwner : address)
| RenounceOwnership.

Definition call (e : Env) (c : Call) (s : State) : result State :=
  match c with
  | ReportThreat target t score ev value =>
      reportThreat e s target t score ev value
  | ValidateReport id isValid => validateReport e s id isValid
  | AddValidator v => addValidator e s v
  | RemoveValidator v => removeValidator e s v
  | UpdateFees fee reward => updateFees e s fee reward
  | EmergencyWithdraw => emergencyWithdraw e s
  | Receive value => receive s value
  | TransferOwnership newOwner => transferOwnership e s newOwner
  | RenounceOwnership => renounceOwnership e s
  end.

(** A transaction that aborts is rolled back: the ledger keeps its state and
    the caller sees the failure. *)
Definition exec (e : Env) (c : Call) (s : State) : State * option error :=
  match call e c s with
  | Ok s' => (s', None)
  | Err er => (s, Some er)
  end.

(** A sequence of transactions, each with its own caller and block. *)
Definition run (txs : list (Env * Call)) (s : State) : State :=
  foldl (fun s tx => fst (exec (fst tx) (snd tx) s)) s txs.

(** The states the deployed ledger can be in. *)
Inductive reachable : State -> Prop :=
| reachable_init (e : Env) : reachable (constructor e)
| reachable_step (e : Env) (c : Call) (s s' : State) :
    reachable s -> call e c s = Ok s' -> reachable s'.

End Ledger.

(** ** Vocabulary of the statements *)

(** The type of the report-identifier hash. *)
Definition hash : Type :=
  address -> address -> ThreatType -> uint256 -> uint256 -> bytes32.

(** The counters a report increments are below the [uint256] ceiling. *)
Definition report_headroom (s : State) (_targetContract : address)
    (_threatType : ThreatType) (_riskScore : uint256) : Prop :=
  let reputation := rd (contractReputations s) _targetContract in
  reportIdCounter s < MAX_UINT256 /\
  totalContracts (metrics s) < MAX_UINT256 /\
  totalScore reputation + _riskScore <= MAX_UINT256 /\
  reportCount reputation < MAX_UINT256 /\
  threatCounts reputation _threatType < MAX_UINT256.

(** The counters a validation increments are below the [uint256] ceiling. *)
Definition validate_headroom (s : State) (_reportId : bytes32) : Prop :=
  validationCount (rd (threatReports s) _reportId) < MAX_UINT256 /\
  validatedReports (metrics s) < MAX_UINT256 /\
  falsePositives (metrics s) < MAX_UINT256.

(** The reward of a validation can be paid out: either the ledger holds less
    than the reward (nothing is sent) or the validator accepts the payment. *)
Definition reward_payable (e : Env) (s : State) : Prop :=
  balance s < validationReward s \/ accepts_transfer e (msg_sender e) = true.

(** Every reporter score is within [0, 100]. *)
Definition scores_bounded (s : State) : Prop :=
  forall a : address, rd (reporterScores s) a <= 100.

(** The average of a target as both views compute it. *)
Definition average (s : State) (_contractAddress : address) : uint256 :=
  let reputation := rd (contractReputations s) _contractAddress in
  if 0 <? reportCount reputation
  then totalScore reputation / reportCount reputation
  else 0.

(** The sum of the six per-type counters of a target. *)
Definition threat_total (reputation : ContractReputation) : uint256 :=
  foldr (fun t acc => threatCounts reputation t + acc) 0 all_threat_types.

(** The ledger a successful [reportThreat] leaves, in closed form
    ([reportThreat_Ok], [reportThreat_Ok_inv]). *)
Definition report_outcome
    (reportIdOf : address -> address -> ThreatType -> uint256 -> uint256
                  -> bytes32)
    (e : Env) (s : State) (_targetContract : address)
    (_threatType : ThreatType) (_riskScore : uint256) (_evidence : string)
    (value : uint256) : State :=
  let reputation := rd (contractReputations s) _targetContract in
  let score := rd (reporterScores s) (msg_sender e) in
  let total := totalScore reputation + _riskScore in
  let count := reportCount reputation + 1 in
  mkState
    (<[_targetContract :=
         mkContractReputation total count (validationScore reputation)
           (isVerified reputation) (block_timestamp e)
           (set_count (threatCounts reputation) _threatType
              (threatCounts reputation _threatType + 1))]>
       (contractReputations s))
    (<[reportIdOf (msg_sender e) _targetContract _threatType
         (block_timestamp e) (reportIdCounter s) :=
         mkThreatReport (msg_sender e) _threatType _riskScore _evidence
           (block_timestamp e) false 0]> (threatReports s))
    (validators s)
    (if score <? 100 then <[msg_sender e := score + 1]> (reporterScores s)
     else reporterScores s)
    (mkSecurityMetrics
       (if reportCount reputation =? 0 then totalContracts (metrics s) + 1
        else totalContracts (metrics s))
       (flaggedContracts (metrics s)) (validatedReports (metrics s))
       (falsePositives (metrics s)))
    (reportIdCounter s + 1) (reportFee s) (validationReward s) (owner s)
    (balance s + value)
    ((events s ++ [ReputationUpdated _targetContract (total / count) count])
       ++ [ThreatReported (msg_sender e) _targetContract _threatType
             _riskScore _evidence]).

(** The ledger a successful [validateReport] leaves, in closed form
    ([validateReport_Ok], [validateReport_Ok_inv]). *)
Definition validation_outcome (s : State) (_reportId : bytes32)
    (_isValid : bool) : State :=
  let report := rd (threatReports s) _reportId in
  let score := rd (reporterScores s) (reporter report) in
  mkState (contractReputations s)
    (<[_reportId :=
         mkThreatReport (reporter report) (threatType report)
           (riskScore report) (evidence report) (timestamp report) true
           (validationCount report + 1)]> (threatReports s))
    (validators s)
    (if _isValid then
       if score <? 100 then <[reporter report := score + 1]> (reporterScores s)
       else reporterScores s
     else
       if 0 <? score then <[reporter report := score - 5]> (reporterScores s)
       else reporterScores s)
    (if _isValid then
       set_validatedReports (validatedReports (metrics s) + 1) (metrics s)
     else set_falsePositives (falsePositives (metrics s) + 1) (metrics s))
    (reportIdCounter s) (reportFee s) (validationReward s) (owner s)
    (if validationReward s <=? balance s
     then balance s - validationReward s else balance s)
    (events s).

(** The per-type counters of every target add up to its report count. *)
Definition reports_counted (s : State) : Prop :=
  forall a : address,
    threat_total (rd (contractReputations s) a)
      = reportCount (rd (contractReputations s) a).

(** [totalContracts] is the number of entries of [contractReputations], and
    every entry has a report. *)
Definition targets_counted (s : State) : Prop :=
  N.of_nat (size (contractReputations s)) = totalContracts (metrics s) /\
  forall (a : address) (reputation : ContractReputation),
    contractReputations s !! a = Some reputation ->
    reportCount reputation <> 0.

(** The cumulative score of a target is at most 100 per report. *)
Definition totals_bounded (s : State) : Prop :=
  forall a : address,
    totalScore (rd (contractReputations s) a)
      <= 100 * reportCount (rd (contractReputations s) a).

(** A counter that a validation increments is at the [uint256] ceiling:
    the count of the report, or the metric of the verdict. *)
Definition validation_overflows (s : State) (_reportId : bytes32)
    (_isValid : bool) : Prop :=
  MAX_UINT256 <= validationCount (rd (threatReports s) _reportId) \/
  MAX_UINT256 <= (if _isValid then validatedReports (metrics s)
                  else falsePositives (metrics s)).

(** The reward is due and the validator's account refuses it. *)
Definition reward_refused (e : Env) (s : State) : Prop :=
  validationReward s <= balance s /\
  accepts_transfer e (msg_sender e) = false.

(** No counter of a target, and no count of targets, exceeds the number of
    reports filed; a cumulative score is at most 100 times that number. *)
Definition counters_bounded (s : State) : Prop :=
  totalContracts (metrics s) <= reportIdCounter s /\
  forall a : address,
    reportCount (rd (contractReputations s) a) <= reportIdCounter s /\
    totalScore (rd (contractReputations s) a) <= 100 * reportIdCounter s /\
    forall t : ThreatType,
      threatCounts (rd (contractReputations s) a) t <= reportIdCounter s.

(** ** A concrete chain for the examples

    The examples run the ledger with an identifier function that returns the
    successor of the counter as a 256-bit word, with callers that accept payments
    ([account]) or refuse them ([refusing]). *)

Definition counter_id (sender target : address) (t : ThreatType)
    (time counter : uint256) : bytes32 := (counter + 1) mod 2 ^ 256.

Definition account (a : address) : Env := mkEnv a 1700000000 (fun _ => true).

Definition refusing (a : address) : Env := mkEnv a 1700000000 (fun _ => false).

Definition FEE : uint256 := 1000000000000000.

(** Account 1 deploys the ledger. *)
Definition genesis : State := constructor (account 1).

(** Account 2 then files a HONEYPOT report with score 85 against target 7. *)
Definition after_report : State :=
  run counter_id [(account 2, ReportThreat 7 HONEYPOT 85 "QmEvidence" FEE)]
    genesis.

(** * Properties *)

(** Projections of a state written by the setters. *)
Ltac simpl_state :=
  cbn [contractReputations threatReports validators reporterScores metrics
       reportIdCounter reportFee validationReward owner balance events
       totalContracts flaggedContracts validatedReports falsePositives
       set_contractReputations set_threatReports set_validators
       set_reporterScores set_metrics set_reportIdCounter set_fees set_owner
       set_balance emit set_totalContracts set_flaggedContracts
       set_validatedReports set_falsePositives
       reporter threatType riskScore evidence timestamp validated
       validationCount totalScore reportCount validationScore isVerified
       lastUpdated threatCounts] in *.

Ltac run_bind := cbn [mbind result_bind].

(** ** The failure monad and checked arithmetic *)

Lemma bind_Ok_l {A B : Type} (a : A) (f : A -> result B) :
  (Ok a ≫= f) = f a.
Proof. reflexivity. Qed.

Lemma bind_Err_l {A B : Type} (e : error) (f : A -> result B) :
  (Err e ≫= f) = Err e.
Proof. reflexivity. Qed.

Lemma bind_Ok_inv {A B : Type} (m : result A) (f : A -> result B) (b : B) :
  (m ≫= f) = Ok b -> exists a, m = Ok a /\ f a = Ok b.
Proof. destruct m as [a|e]; [eauto | discriminate]. Qed.

Lemma require_Ok_inv (cond : bool) (reason : string) (u : unit) :
  require cond reason = Ok u -> cond = true.
Proof. destruct cond; [reflexivity | discriminate]. Qed.

Lemma require_true (reason : string) : require true reason = Ok tt.
Proof. reflexivity. Qed.

Lemma require_false (reason : string) :
  require false reason = Err (Revert reason).
Proof. reflexivity. Qed.

Lemma bind_Err_inv {A B : Type} (m : result A) (f : A -> result B)
    (er : error) :
  (m ≫= f) = Err er -> m = Err er \/ exists a, m = Ok a /\ f a = Err er.
Proof. destruct m as [a|e']; [eauto | intros [= ->]; auto]. Qed.

Lemma require_Err_inv (cond : bool) (reason : string) (er : error) :
  require cond reason = Err er -> cond = false /\ er = Revert reason.
Proof. destruct cond; [discriminate | intros [= <-]; auto]. Qed.

Lemma MAX_UINT256_large : 1000 < MAX_UINT256.
Proof. reflexivity. Qed.

Lemma checked_add_Ok (a b : N) :
  a + b <= MAX_UINT256 -> checked_add a b = Ok (a + b).
Proof.
  intros H. unfold checked_add.
  destruct (N.leb_spec (a + b) MAX_UINT256); [reflexivity | lia].
Qed.

Lemma checked_add_Ok_inv (a b c : N) :
  checked_add a b = Ok c -> c = a + b /\ a + b <= MAX_UINT256.
Proof.
  unfold checked_add.
  destruct (N.leb_spec (a + b) MAX_UINT256); [|discriminate].
  intros [= <-]. split; [reflexivity | assumption].
Qed.

Lemma checked_add_Err_inv (a b : N) (er : error) :
  checked_add a b = Err er -> er = Panic PANIC_ARITHMETIC.
Proof.
  unfold checked_add. destruct (a + b <=? MAX_UINT256); congruence.
Qed.

Lemma checked_add_succ (a : N) :
  a < MAX_UINT256 -> checked_add a 1 = Ok (a + 1).
Proof. intros H. apply checked_add_Ok. lia. Qed.

Lemma checked_sub_Ok (a b : N) : b <= a -> checked_sub a b = Ok (a - b).
Proof.
  intros H. unfold checked_sub.
  destruct (N.leb_spec b a); [reflexivity | lia].
Qed.

Lemma checked_sub_Err (a b : N) :
  a < b -> checked_sub a b = Err (Panic PANIC_ARITHMETIC).
Proof.
  intros H. unfold checked_sub.
  destruct (N.leb_spec b a); [lia | reflexivity].
Qed.

Lemma checked_div_Ok (a b : N) : b <> 0 -> checked_div a b = Ok (a / b).
Proof.
  intros H. unfold checked_div.
  destruct (N.eqb_spec b 0); [contradiction | reflexivity].
Qed.

(** ** Mappings *)

Lemma rd_insert_eq {V : Type} `{Zero V} (m : gmap N V) (k : N) (v : V) :
  rd (<[k := v]> m) k = v.
Proof. unfold rd. rewrite lookup_insert_eq. reflexivity. Qed.

Lemma rd_insert_ne {V : Type} `{Zero V} (m : gmap N V) (k k' : N) (v : V) :
  k <> k' -> rd (<[k := v]> m) k' = rd m k'.
Proof. intros Hne. unfold rd. rewrite lookup_insert_ne; done. Qed.

Lemma rd_empty {V : Type} `{Zero V} (k : N) : rd (∅ : gmap N V) k = zero.
Proof. unfold rd. rewrite lookup_empty. reflexivity. Qed.

Lemma set_count_eq (f : ThreatType -> uint256) (t : ThreatType) (v : uint256) :
  set_count f t v t = v.
Proof. unfold set_count. destruct (decide (t = t)); congruence. Qed.

Lemma set_count_ne (f : ThreatType -> uint256) (t t' : ThreatType)
    (v : uint256) :
  t <> t' -> set_count f t v t' = f t'.
Proof. intros Hne. unfold set_count. destruct (decide (t = t')); congruence. Qed.

(** ** The reputation update *)

(** The flagging branch of [_updateContractReputation] is dead: the guard
    reads the average twice from the entry it has just written.  What is
    left of the function is the update of the counters. *)
Lemma _updateContractReputation_eq (e : Env) (s : State) (addr : address)
    (t : ThreatType) (score : uint256) :
  _updateContractReputation e s addr t score =
    let rep := rd (contractReputations s) addr in
    n ← (if reportCount rep =? 0
         then checked_add (totalContracts (metrics s)) 1
         else Ok (totalContracts (metrics s)));
    total ← checked_add (totalScore rep) score;
    count ← checked_add (reportCount rep) 1;
    tcount ← checked_add (threatCounts rep t) 1;
    Ok (mkState
          (<[addr := mkContractReputation total count (validationScore rep)
                       (isVerified rep) (block_timestamp e)
                       (set_count (threatCounts rep) t tcount)]>
             (contractReputations s))
          (threatReports s) (validators s) (reporterScores s)
          (mkSecurityMetrics n (flaggedContracts (metrics s))
             (validatedReports (metrics s)) (falsePositives (metrics s)))
          (reportIdCounter s) (reportFee s) (validationReward s) (owner s)
          (balance s)
          (events s ++ [ReputationUpdated addr (total / count) count])).
Proof.
  destruct s as [reps reports vals scores [tc fc vr fp] ctr fee reward own bal
                   evs].
  unfold _updateContractReputation. cbn [contractReputations metrics
    totalContracts flaggedContracts validatedReports falsePositives
    threatReports validators reporterScores reportIdCounter reportFee
    validationReward owner balance events].
  set (rep := rd reps addr).
  assert (Hs1 : forall (s1 : State) (n : N),
    s1 = mkState reps reports vals scores (mkSecurityMetrics n fc vr fp) ctr
           fee reward own bal evs ->
    (total ← checked_add (totalScore rep) score;
     count ← checked_add (reportCount rep) 1;
     tcount ← checked_add (threatCounts rep t) 1;
     let reputation' :=
       mkContractReputation total count (validationScore rep)
         (isVerified rep) (block_timestamp e)
         (set_count (threatCounts rep) t tcount) in
     let s2 :=
       set_contractReputations
         (<[addr := reputation']> (contractReputations s1)) s1 in
     avgScore ← checked_div total count;
     flag ← (if 70 <? avgScore then
               already ← _isAlreadyFlagged s2 addr;
               Ok (negb already)
             else Ok false);
     s3 ← (if flag : bool then
             n ← checked_add (flaggedContracts (metrics s2)) 1;
             Ok (set_metrics (set_flaggedContracts n (metrics s2)) s2)
           else Ok s2);
     Ok (emit (ReputationUpdated addr avgScore count) s3)) =
    (total ← checked_add (totalScore rep) score;
     count ← checked_add (reportCount rep) 1;
     tcount ← checked_add (threatCounts rep t) 1;
     Ok (mkState
           (<[addr := mkContractReputation total count (validationScore rep)
                        (isVerified rep) (block_timestamp e)
                        (set_count (threatCounts rep) t tcount)]> reps)
           reports vals scores (mkSecurityMetrics n fc vr fp) ctr fee reward
           own bal (evs ++ [ReputationUpdated addr (total / count) count])))).
  { intros s1 n ->.
    destruct (checked_add (totalScore rep) score) as [total|] eqn:Ht;
      [|reflexivity].
    destruct (checked_add (reportCount rep) 1) as [count|] eqn:Hc;
      [|reflexivity].
    destruct (checked_add (threatCounts rep t) 1) as [tcount|] eqn:Htc;
      [|reflexivity].
    rewrite !bind_Ok_l. cbn zeta.
    apply checked_add_Ok_inv in Hc as [-> _].
    rewrite checked_div_Ok by lia. rewrite bind_Ok_l.
    destruct (70 <? total / (reportCount rep + 1)) eqn:Havg.
    - unfold _isAlreadyFlagged, set_contractReputations.
      cbn [contractReputations]. rewrite rd_insert_eq.
      cbn [totalScore reportCount].
      rewrite checked_div_Ok by lia. rewrite !bind_Ok_l, Havg.
      reflexivity.
    - reflexivity. }
  destruct (reportCount rep =? 0).
  - destruct (checked_add tc 1) as [n|] eqn:Hn; [|reflexivity].
    rewrite !bind_Ok_l. apply Hs1. reflexivity.
  - rewrite !bind_Ok_l. apply Hs1. reflexivity.
Qed.

(** ** Reporter scores *)

Lemma _updateReporterScore_positive (s : State) (r : address) :
  _updateReporterScore s r true =
    Ok (if rd (reporterScores s) r <? 100
        then set_reporterScores
               (<[r := rd (reporterScores s) r + 1]> (reporterScores s)) s
        else s).
Proof.
  unfold _updateReporterScore.
  destruct (N.ltb_spec (rd (reporterScores s) r) 100); [|reflexivity].
  rewrite checked_add_Ok; [reflexivity|].
  pose proof MAX_UINT256_large. lia.
Qed.

Lemma _updateReporterScore_negative_zero (s : State) (r : address) :
  rd (reporterScores s) r = 0 -> _updateReporterScore s r false = Ok s.
Proof. intros H. unfold _updateReporterScore. rewrite H. reflexivity. Qed.

Lemma _updateReporterScore_negative_sub (s : State) (r : address) :
  5 <= rd (reporterScores s) r ->
  _updateReporterScore s r false =
    Ok (set_reporterScores
          (<[r := rd (reporterScores s) r - 5]> (reporterScores s)) s).
Proof.
  intros H. unfold _updateReporterScore.
  destruct (N.ltb_spec 0 (rd (reporterScores s) r)); [|lia].
  rewrite checked_sub_Ok by assumption. reflexivity.
Qed.

Lemma _updateReporterScore_negative_panic (s : State) (r : address) :
  0 < rd (reporterScores s) r < 5 ->
  _updateReporterScore s r false = Err (Panic PANIC_ARITHMETIC).
Proof.
  intros [H0 H5]. unfold _updateReporterScore.
  destruct (N.ltb_spec 0 (rd (reporterScores s) r)); [|lia].
  rewrite checked_sub_Err by assumption. reflexivity.
Qed.

(** ** Filing a report *)

Lemma evidence_empty (ev : string) :
  (0 <? N.of_nat (String.length ev)) = false <-> ev = EmptyString.
Proof. destruct ev; split; intros H; try reflexivity; discriminate. Qed.

Lemma reportThreat_Ok (reportIdOf : hash) e s target t score ev value :
  score <= MAX_RISK_SCORE -> reportFee s <= value -> target <> 0 ->
  ev <> EmptyString -> report_headroom s target t score ->
  reportThreat reportIdOf e s target t score ev value =
    Ok (report_outcome reportIdOf e s target t score ev value).
Proof.
  intros H1 H2 H3 H4 (Hctr & Htc & Hts & Hrc & Hcnt).
  unfold reportThreat. simpl_state.
  apply N.leb_le in H1 as ->. apply N.leb_le in H2 as ->.
  apply N.eqb_neq in H3 as ->.
  destruct (0 <? N.of_nat (String.length ev)) eqn:Hev;
    [|apply evidence_empty in Hev; contradiction].
  cbn [negb require mbind result_bind].
  rewrite checked_add_succ by assumption. cbn [mbind result_bind].
  rewrite _updateContractReputation_eq. simpl_state. cbn zeta.
  assert (Hn : (if reportCount (rd (contractReputations s) target) =? 0
                then checked_add (totalContracts (metrics s)) 1
                else Ok (totalContracts (metrics s))) =
               Ok (if reportCount (rd (contractReputations s) target) =? 0
                   then totalContracts (metrics s) + 1
                   else totalContracts (metrics s))).
  { destruct (reportCount (rd (contractReputations s) target) =? 0);
      [apply checked_add_succ; assumption | reflexivity]. }
  rewrite Hn. rewrite (checked_add_Ok _ score) by assumption.
  rewrite !checked_add_succ by assumption. cbn [mbind result_bind].
  rewrite _updateReporterScore_positive. cbn [mbind result_bind].
  simpl_state.
  unfold report_outcome.
  destruct (rd (reporterScores s) (msg_sender e) <? 100); reflexivity.
Qed.

Lemma reportThreat_Ok_inv (reportIdOf : hash) e s target t score ev value s' :
  reportThreat reportIdOf e s target t score ev value = Ok s' ->
  score <= MAX_RISK_SCORE /\ reportFee s <= value /\ target <> 0 /\
  ev <> EmptyString /\
  s' = report_outcome reportIdOf e s target t score ev value.
Proof.
  unfold reportThreat. intros H.
  apply bind_Ok_inv in H as [[] [H1 H]]. apply require_Ok_inv in H1.
  apply bind_Ok_inv in H as [[] [H2 H]]. apply require_Ok_inv in H2.
  apply bind_Ok_inv in H as [[] [H3 H]]. apply require_Ok_inv in H3.
  apply bind_Ok_inv in H as [[] [H4 H]]. apply require_Ok_inv in H4.
  apply bind_Ok_inv in H as [ctr [H5 H]].
  apply checked_add_Ok_inv in H5 as [-> H5].
  rewrite _updateContractReputation_eq in H.
  simpl_state. cbn zeta in H.
  apply bind_Ok_inv in H as [s1 [H6 H]].
  apply bind_Ok_inv in H6 as [n [Hn H6]].
  apply bind_Ok_inv in H6 as [total [Ht H6]].
  apply checked_add_Ok_inv in Ht as [-> Ht].
  apply bind_Ok_inv in H6 as [count [Hc H6]].
  apply checked_add_Ok_inv in Hc as [-> Hc].
  apply bind_Ok_inv in H6 as [tcount [Htc H6]].
  apply checked_add_Ok_inv in Htc as [-> Htc].
  injection H6 as <-.
  rewrite _updateReporterScore_positive in H. rewrite bind_Ok_l in H.
  simpl_state. injection H as <-.
  split; [apply N.leb_le; assumption|].
  split; [apply N.leb_le; assumption|].
  split; [apply negb_true_iff, N.eqb_neq in H3; assumption|].
  split; [destruct ev; [discriminate | discriminate]|].
  unfold report_outcome.
  assert (Hn' : n = if reportCount (rd (contractReputations s) target) =? 0
                    then totalContracts (metrics s) + 1
                    else totalContracts (metrics s)).
  { destruct (reportCount (rd (contractReputations s) target) =? 0).
    - apply checked_add_Ok_inv in Hn as [-> _]. reflexivity.
    - congruence. }
  subst n.
  destruct (rd (reporterScores s) (msg_sender e) <? 100); reflexivity.
Qed.

Lemma reportThreat_Err_inv (reportIdOf : hash) e s target t score ev value er :
  reportThreat reportIdOf e s target t score ev value = Err er ->
  (MAX_RISK_SCORE < score /\ er = Revert "Risk score exceeds maximum") \/
  (value < reportFee s /\ er = Revert "Insufficient fee") \/
  (target = 0 /\ er = Revert "Invalid contract address") \/
  (ev = EmptyString /\ er = Revert "Evidence required") \/
  er = Panic PANIC_ARITHMETIC.
Proof.
  unfold reportThreat. simpl_state. intros H.
  apply bind_Err_inv in H as [H|[[] [_ H]]].
  { apply require_Err_inv in H as [H ->]. apply N.leb_gt in H. auto. }
  apply bind_Err_inv in H as [H|[[] [_ H]]].
  { apply require_Err_inv in H as [H ->]. apply N.leb_gt in H. auto. }
  apply bind_Err_inv in H as [H|[[] [_ H]]].
  { apply require_Err_inv in H as [H ->].
    apply negb_false_iff, N.eqb_eq in H. auto. }
  apply bind_Err_inv in H as [H|[[] [_ H]]].
  { apply require_Err_inv in H as [H ->]. apply evidence_empty in H.
    auto 6. }
  do 4 right.
  apply bind_Err_inv in H as [H|[ctr [_ H]]].
  { apply checked_add_Err_inv in H. assumption. }
  rewrite _updateContractReputation_eq in H. cbn zeta in H.
  apply bind_Err_inv in H as [H|[s1 [_ H]]].
  - apply bind_Err_inv in H as [H|[n [_ H]]].
    { destruct (reportCount _ =? 0);
        [apply checked_add_Err_inv in H; assumption | discriminate]. }
    apply bind_Err_inv in H as [H|[total [_ H]]].
    { apply checked_add_Err_inv in H. assumption. }
    apply bind_Err_inv in H as [H|[count [_ H]]].
    { apply checked_add_Err_inv in H. assumption. }
    apply bind_Err_inv in H as [H|[tcount [_ H]]].
    { apply checked_add_Err_inv in H. assumption. }
    discriminate.
  - rewrite _updateReporterScore_positive in H. discriminate.
Qed.

(** ** Validating a report *)

Lemma validateReport_Ok_inv e s id isValid s' :
  validateReport e s id isValid = Ok s' ->
  rd (validators s) (msg_sender e) = true /\
  reporter (rd (threatReports s) id) <> 0 /\
  validated (rd (threatReports s) id) = false /\
  (isValid = false ->
   rd (reporterScores s) (reporter (rd (threatReports s) id)) = 0 \/
   5 <= rd (reporterScores s) (reporter (rd (threatReports s) id))) /\
  (validationReward s <= balance s -> accepts_transfer e (msg_sender e) = true) /\
  s' = validation_outcome s id isValid.
Proof.
  unfold validateReport. intros H.
  apply bind_Ok_inv in H as [[] [H1 H]]. apply require_Ok_inv in H1.
  apply bind_Ok_inv in H as [[] [H2 H]]. apply require_Ok_inv in H2.
  apply bind_Ok_inv in H as [[] [H3 H]]. apply require_Ok_inv in H3.
  apply bind_Ok_inv in H as [vc [H4 H]].
  apply checked_add_Ok_inv in H4 as [-> H4].
  apply bind_Ok_inv in H as [s1 [H5 H]].
  apply negb_true_iff in H2, H3. apply N.eqb_neq in H2.
  split; [assumption|]. split; [assumption|]. split; [assumption|].
  simpl_state. unfold validation_outcome.
  set (report := rd (threatReports s) id) in *.
  set (score := rd (reporterScores s) (reporter report)) in *.
  destruct isValid.
  - apply bind_Ok_inv in H5 as [n [Hn H5]].
    apply checked_add_Ok_inv in Hn as [-> Hn].
    rewrite _updateReporterScore_positive in H5. simpl_state.
    injection H5 as <-. fold score in H |- *.
    split; [discriminate|].
    destruct (score <? 100); simpl_state;
      destruct (N.leb_spec (validationReward s) (balance s));
      destruct (accepts_transfer e (msg_sender e)); try discriminate;
      injection H as <-; (split; [intros; (reflexivity || lia)|]);
      reflexivity.
  - apply bind_Ok_inv in H5 as [n [Hn H5]].
    apply checked_add_Ok_inv in Hn as [-> Hn].
    unfold _updateReporterScore in H5. simpl_state. fold score in H5.
    destruct (N.ltb_spec 0 score) as [Hpos|Hzero].
    + apply bind_Ok_inv in H5 as [v [Hv H5]].
      unfold checked_sub in Hv.
      destruct (N.leb_spec 5 score) as [H5le|]; [|discriminate].
      injection Hv as <-. injection H5 as <-. simpl_state.
      split; [intros _; right; assumption|].
      destruct (N.leb_spec (validationReward s) (balance s));
        destruct (accepts_transfer e (msg_sender e)); try discriminate;
        injection H as <-; (split; [intros; (reflexivity || lia)|]);
        reflexivity.
    + injection H5 as <-. simpl_state.
      split; [intros _; left; lia|].
      destruct (N.leb_spec (validationReward s) (balance s));
        destruct (accepts_transfer e (msg_sender e)); try discriminate;
        injection H as <-; (split; [intros; (reflexivity || lia)|]);
        reflexivity.
Qed.

Lemma validateReport_not_validator e s id isValid :
  rd (validators s) (msg_sender e) = false ->
  validateReport e s id isValid = Err (Revert "Not authorized validator").
Proof. intros H. unfold validateReport. rewrite H. reflexivity. Qed.

Lemma validateReport_unknown e s id isValid :
  rd (validators s) (msg_sender e) = true ->
  reporter (rd (threatReports s) id) = 0 ->
  validateReport e s id isValid = Err (Revert "Report does not exist").
Proof. intros H1 H2. unfold validateReport. rewrite H1, H2. reflexivity. Qed.

Lemma validateReport_already e s id isValid :
  rd (validators s) (msg_sender e) = true ->
  reporter (rd (threatReports s) id) <> 0 ->
  validated (rd (threatReports s) id) = true ->
  validateReport e s id isValid = Err (Revert "Report already validated").
Proof.
  intros H1 H2 H3. unfold validateReport. rewrite H1, H3.
  apply N.eqb_neq in H2 as ->. reflexivity.
Qed.

(** The part of [validateReport] before the reward is paid. *)
Lemma validateReport_Ok e s id isValid :
  rd (validators s) (msg_sender e) = true ->
  reporter (rd (threatReports s) id) <> 0 ->
  validated (rd (threatReports s) id) = false ->
  validate_headroom s id ->
  (isValid = false ->
   rd (reporterScores s) (reporter (rd (threatReports s) id)) = 0 \/
   5 <= rd (reporterScores s) (reporter (rd (threatReports s) id))) ->
  validateReport e s id isValid =
    if (validationReward s <=? balance s)
       && negb (accepts_transfer e (msg_sender e))
    then Err TransferFailed
    else Ok (validation_outcome s id isValid).
Proof.
  intros H1 H2 H3 (Hvc & Hvr & Hfp) Hscore.
  unfold validateReport, validation_outcome. rewrite H1, H3.
  apply N.eqb_neq in H2 as ->. cbn [negb require mbind result_bind].
  rewrite checked_add_succ by assumption. cbn [mbind result_bind].
  simpl_state.
  set (report := rd (threatReports s) id) in *.
  set (score := rd (reporterScores s) (reporter report)) in *.
  destruct isValid.
  - rewrite checked_add_succ by assumption. cbn [mbind result_bind].
    rewrite _updateReporterScore_positive. cbn [mbind result_bind].
    simpl_state. fold score.
    destruct (score <? 100); simpl_state;
      destruct (validationReward s <=? balance s);
      destruct (accepts_transfer e (msg_sender e)); reflexivity.
  - rewrite checked_add_succ by assumption. cbn [mbind result_bind].
    destruct (Hscore eq_refl) as [Hz|Hge].
    + rewrite _updateReporterScore_negative_zero by (simpl_state; exact Hz).
      cbn [mbind result_bind]. simpl_state.
      replace (0 <? score) with false by (symmetry; apply N.ltb_ge; lia).
      destruct (validationReward s <=? balance s);
        destruct (accepts_transfer e (msg_sender e)); reflexivity.
    + rewrite _updateReporterScore_negative_sub by (simpl_state; exact Hge).
      cbn [mbind result_bind]. simpl_state. fold score.
      replace (0 <? score) with true by (symmetry; apply N.ltb_lt; lia).
      destruct (validationReward s <=? balance s);
        destruct (accepts_transfer e (msg_sender e)); reflexivity.
Qed.

Lemma validateReport_negative_panic e s id :
  rd (validators s) (msg_sender e) = true ->
  reporter (rd (threatReports s) id) <> 0 ->
  validated (rd (threatReports s) id) = false ->
  validate_headroom s id ->
  0 < rd (reporterScores s) (reporter (rd (threatReports s) id)) < 5 ->
  validateReport e s id false = Err (Panic PANIC_ARITHMETIC).
Proof.
  intros H1 H2 H3 (Hvc & Hvr & Hfp) Hscore.
  unfold validateReport. rewrite H1, H3.
  apply N.eqb_neq in H2 as ->. cbn [negb require mbind result_bind].
  rewrite checked_add_succ by assumption. cbn [mbind result_bind].
  simpl_state.
  rewrite checked_add_succ by assumption. cbn [mbind result_bind].
  rewrite _updateReporterScore_negative_panic by (simpl_state; exact Hscore).
  reflexivity.
Qed.

Lemma checked_add_overflow (a : N) :
  MAX_UINT256 <= a -> checked_add a 1 = Err (Panic PANIC_ARITHMETIC).
Proof.
  intros H. unfold checked_add.
  destruct (N.leb_spec (a + 1) MAX_UINT256); [lia | reflexivity].
Qed.

(** After the three checks, a counter at the ceiling aborts the call. *)
Lemma validateReport_overflow e s id isValid :
  rd (validators s) (msg_sender e) = true ->
  reporter (rd (threatReports s) id) <> 0 ->
  validated (rd (threatReports s) id) = false ->
  validation_overflows s id isValid ->
  validateReport e s id isValid = Err (Panic PANIC_ARITHMETIC).
Proof.
  intros H1 H2 H3 Hover. unfold validateReport. rewrite H1, H3.
  apply N.eqb_neq in H2 as ->. cbn [negb require mbind result_bind].
  destruct (N.le_gt_cases MAX_UINT256
              (validationCount (rd (threatReports s) id))) as [Hvc|Hvc].
  { rewrite checked_add_overflow by assumption. reflexivity. }
  rewrite checked_add_succ by assumption. run_bind. simpl_state.
  destruct Hover as [Hover|Hover]; [lia|].
  destruct isValid; rewrite checked_add_overflow by assumption; reflexivity.
Qed.

(** After the three checks, with the counters below the ceiling and the
    penalty in range, only the payment of the reward can still fail. *)
Lemma validateReport_run e s id isValid :
  rd (validators s) (msg_sender e) = true ->
  reporter (rd (threatReports s) id) <> 0 ->
  validated (rd (threatReports s) id) = false ->
  ~ validation_overflows s id isValid ->
  (isValid = false ->
   rd (reporterScores s) (reporter (rd (threatReports s) id)) = 0 \/
   5 <= rd (reporterScores s) (reporter (rd (threatReports s) id))) ->
  validateReport e s id isValid =
    if (validationReward s <=? balance s)
       && negb (accepts_transfer e (msg_sender e))
    then Err TransferFailed
    else Ok (validation_outcome s id isValid).
Proof.
  intros H1 H2 H3 Hroom Hscore.
  assert (Hvc : validationCount (rd (threatReports s) id) < MAX_UINT256).
  { apply N.lt_nge. intros H. apply Hroom. left. exact H. }
  assert (Hm : (if isValid then validatedReports (metrics s)
                else falsePositives (metrics s)) < MAX_UINT256).
  { apply N.lt_nge. intros H. apply Hroom. right. exact H. }
  unfold validateReport, validation_outcome. rewrite H1, H3.
  apply N.eqb_neq in H2 as ->. cbn [negb require mbind result_bind].
  rewrite checked_add_succ by assumption. run_bind. simpl_state.
  set (report := rd (threatReports s) id) in *.
  set (score := rd (reporterScores s) (reporter report)) in *.
  destruct isValid.
  - rewrite checked_add_succ by assumption. run_bind.
    rewrite _updateReporterScore_positive. run_bind.
    simpl_state. fold score.
    destruct (score <? 100); simpl_state;
      destruct (validationReward s <=? balance s);
      destruct (accepts_transfer e (msg_sender e)); reflexivity.
  - rewrite checked_add_succ by assumption. run_bind.
    destruct (Hscore eq_refl) as [Hz|Hge].
    + rewrite _updateReporterScore_negative_zero by (simpl_state; exact Hz).
      run_bind. simpl_state.
      replace (0 <? score) with false by (symmetry; apply N.ltb_ge; lia).
      destruct (validationReward s <=? balance s);
        destruct (accepts_transfer e (msg_sender e)); reflexivity.
    + rewrite _updateReporterScore_negative_sub by (simpl_state; exact Hge).
      run_bind. simpl_state. fold score.
      replace (0 <? score) with true by (symmetry; apply N.ltb_lt; lia).
      destruct (validationReward s <=? balance s);
        destruct (accepts_transfer e (msg_sender e)); reflexivity.
Qed.

Lemma _updateReporterScore_Err_inv (s : State) (r : address) (b : bool)
    (er : error) :
  _updateReporterScore s r b = Err er -> er = Panic PANIC_ARITHMETIC.
Proof.
  destruct b.
  - rewrite _updateReporterScore_positive. discriminate.
  - unfold _updateReporterScore. destruct (0 <? _); [|discriminate].
    unfold checked_sub. destruct (5 <=? _); [discriminate|].
    intros [= <-]. reflexivity.
Qed.

(** Past the three checks a rejection is the arithmetic panic or the failed
    payment of the reward. *)
Lemma validateReport_Err_inv e s id isValid er :
  rd (validators s) (msg_sender e) = true ->
  reporter (rd (threatReports s) id) <> 0 ->
  validated (rd (threatReports s) id) = false ->
  validateReport e s id isValid = Err er ->
  er = Panic PANIC_ARITHMETIC \/ er = TransferFailed.
Proof.
  intros H1 H2 H3. unfold validateReport. rewrite H1, H3.
  apply N.eqb_neq in H2 as ->. cbn [negb require mbind result_bind].
  intros H. apply bind_Err_inv in H as [H|[vc [_ H]]].
  { left. apply checked_add_Err_inv in H. assumption. }
  apply bind_Err_inv in H as [H|[s1 [_ H]]].
  - left. destruct isValid;
      (apply bind_Err_inv in H as [H|[n [_ H]]];
       [apply checked_add_Err_inv in H; assumption
       |apply _updateReporterScore_Err_inv in H; assumption]).
  - right. destruct (_ <=? _); [|discriminate].
    destruct (accepts_transfer _ _); [discriminate|].
    injection H as <-. reflexivity.
Qed.

Lemma validateReport_check_fails e s id isValid :
  rd (validators s) (msg_sender e) = false \/
  reporter (rd (threatReports s) id) = 0 \/
  validated (rd (threatReports s) id) = true ->
  exists reason, validateReport e s id isValid = Err (Revert reason).
Proof.
  intros [H|[H|H]].
  - eexists. apply validateReport_not_validator. assumption.
  - destruct (rd (validators s) (msg_sender e)) eqn:Hv.
    + eexists. apply validateReport_unknown; assumption.
    + eexists. apply validateReport_not_validator. assumption.
  - destruct (rd (validators s) (msg_sender e)) eqn:Hv;
      [|eexists; apply validateReport_not_validator; assumption].
    destruct (N.eq_dec (reporter (rd (threatReports s) id)) 0) as [Hr|Hr].
    + eexists. apply validateReport_unknown; assumption.
    + eexists. apply validateReport_already; assumption.
Qed.

Lemma validation_checks_dec e s id :
  (rd (validators s) (msg_sender e) = false \/
   reporter (rd (threatReports s) id) = 0 \/
   validated (rd (threatReports s) id) = true) \/
  (rd (validators s) (msg_sender e) = true /\
   reporter (rd (threatReports s) id) <> 0 /\
   validated (rd (threatReports s) id) = false).
Proof.
  destruct (rd (validators s) (msg_sender e)); [|auto].
  destruct (N.eq_dec (reporter (rd (threatReports s) id)) 0); [auto|].
  destruct (validated (rd (threatReports s) id)); auto.
Qed.

Lemma validation_overflows_dec s id isValid :
  validation_overflows s id isValid \/ ~ validation_overflows s id isValid.
Proof.
  unfold validation_overflows.
  destruct (N.le_gt_cases MAX_UINT256
              (validationCount (rd (threatReports s) id))); [auto|].
  destruct (N.le_gt_cases MAX_UINT256
              (if isValid then validatedReports (metrics s)
               else falsePositives (metrics s))); [auto|].
  right. intros [?|?]; lia.
Qed.

Lemma reward_refused_iff e s :
  reward_refused e s <->
  (validationReward s <=? balance s)
  && negb (accepts_transfer e (msg_sender e)) = true.
Proof.
  unfold reward_refused.
  rewrite andb_true_iff, N.leb_le, negb_true_iff. reflexivity.
Qed.

(** ** Views *)

Lemma _getReportedThreats_eq (s : State) (a : address) :
  _getReportedThreats s a =
    Ok (List.filter
          (fun t => 0 <? threatCounts (rd (contractReputations s) a) t)
          all_threat_types).
Proof.
  assert (general : forall p : ThreatType -> bool,
    (count ← for_range 0 6 (fun i count =>
       t ← ThreatType_of_uint i;
       if p t then checked_add count 1 else Ok count) 0;
     let threats := replicate (N.to_nat count) HONEYPOT in
     '(threats, _) ← for_range 0 6 (fun i '(threats, index) =>
       t ← ThreatType_of_uint i;
       if p t then
         threats' ← array_set threats index t;
         index' ← checked_add index 1;
         Ok (threats', index')
       else Ok (threats, index)) (threats, 0);
     Ok threats) = Ok (List.filter p all_threat_types)).
  { intros p. unfold all_threat_types. cbn [List.filter].
    unfold for_range.
    change (0 + 1 + 1 + 1 + 1 + 1) with 5. change (0 + 1 + 1 + 1 + 1) with 4.
    change (0 + 1 + 1 + 1) with 3. change (0 + 1 + 1) with 2.
    change (0 + 1) with 1.
    cbn [ThreatType_of_uint mbind result_bind].
    destruct (p HONEYPOT), (p RUGPULL), (p MEV_VULNERABILITY),
      (p SANDWICH_RISK), (p PHISHING), (p MALICIOUS_CONTRACT);
      reflexivity. }
  exact (general (fun t => 0 <? threatCounts (rd (contractReputations s) a) t)).
Qed.

Lemma average_div (s : State) (a : address) :
  (if 0 <? reportCount (rd (contractReputations s) a)
   then checked_div (totalScore (rd (contractReputations s) a))
          (reportCount (rd (contractReputations s) a))
   else Ok 0) = Ok (average s a).
Proof.
  unfold average.
  destruct (N.ltb_spec 0 (reportCount (rd (contractReputations s) a)));
    [apply checked_div_Ok; lia | reflexivity].
Qed.

Lemma getRiskAnalysis_eq (s : State) (a : address) :
  getRiskAnalysis s a =
    Ok (mkRiskAnalysis
          (if average s a <=? 30 then SAFE
           else if average s a <=? 70 then RISKY else DANGEROUS)
          (average s a)
          (reportCount (rd (contractReputations s) a))
          (List.filter
             (fun t => 0 <? threatCounts (rd (contractReputations s) a) t)
             all_threat_types)).
Proof.
  unfold getRiskAnalysis. cbn zeta. rewrite average_div. run_bind.
  rewrite _getReportedThreats_eq. reflexivity.
Qed.

Lemma isHighRiskContract_eq (s : State) (a : address) :
  isHighRiskContract s a = Ok (70 <? average s a, average s a).
Proof.
  unfold isHighRiskContract. cbn zeta. rewrite average_div. reflexivity.
Qed.

(** ** Administration *)

Lemma onlyOwner_Ok_inv (e : Env) (s : State) (u : unit) :
  onlyOwner e s = Ok u -> msg_sender e = owner s.
Proof.
  unfold onlyOwner. intros H. apply require_Ok_inv in H.
  apply N.eqb_eq. assumption.
Qed.

Lemma onlyOwner_owner (e : Env) (s : State) :
  msg_sender e = owner s -> onlyOwner e s = Ok tt.
Proof. intros H. unfold onlyOwner. rewrite H, N.eqb_refl. reflexivity. Qed.

Lemma onlyOwner_other (e : Env) (s : State) :
  msg_sender e <> owner s -> onlyOwner e s = Err (Revert ONLY_OWNER).
Proof.
  intros H. unfold onlyOwner. apply N.eqb_neq in H as ->. reflexivity.
Qed.

Lemma addValidator_Ok_inv (e : Env) (s : State) (v : address) (s' : State) :
  addValidator e s v = Ok s' ->
  msg_sender e = owner s /\ v <> 0 /\ rd (validators s) v = false /\
  s' = emit (ValidatorAdded v)
         (set_reporterScores (<[v := 100]> (reporterScores s))
            (set_validators (<[v := true]> (validators s)) s)).
Proof.
  unfold addValidator. intros H.
  apply bind_Ok_inv in H as [[] [H1 H]]. apply onlyOwner_Ok_inv in H1.
  apply bind_Ok_inv in H as [[] [H2 H]]. apply require_Ok_inv in H2.
  apply bind_Ok_inv in H as [[] [H3 H]]. apply require_Ok_inv in H3.
  apply negb_true_iff in H2, H3. apply N.eqb_neq in H2.
  injection H as <-. simpl_state. auto.
Qed.

Lemma removeValidator_Ok_inv (e : Env) (s : State) (v : address)
    (s' : State) :
  removeValidator e s v = Ok s' ->
  msg_sender e = owner s /\ rd (validators s) v = true /\
  s' = emit (ValidatorRemoved v)
         (set_validators (<[v := false]> (validators s)) s).
Proof.
  unfold removeValidator. intros H.
  apply bind_Ok_inv in H as [[] [H1 H]]. apply onlyOwner_Ok_inv in H1.
  apply bind_Ok_inv in H as [[] [H2 H]]. apply require_Ok_inv in H2.
  injection H as <-. auto.
Qed.

Lemma updateFees_Ok_inv (e : Env) (s : State) (fee reward : uint256)
    (s' : State) :
  updateFees e s fee reward = Ok s' ->
  msg_sender e = owner s /\ s' = set_fees fee reward s.
Proof.
  unfold updateFees. intros H.
  apply bind_Ok_inv in H as [[] [H1 H]]. apply onlyOwner_Ok_inv in H1.
  injection H as <-. auto.
Qed.

Lemma emergencyWithdraw_Ok_inv (e : Env) (s : State) (s' : State) :
  emergencyWithdraw e s = Ok s' ->
  msg_sender e = owner s /\ accepts_transfer e (owner s) = true /\
  s' = set_balance 0 s.
Proof.
  unfold emergencyWithdraw. intros H.
  apply bind_Ok_inv in H as [[] [H1 H]]. apply onlyOwner_Ok_inv in H1.
  destruct (accepts_transfer e (owner s)); [|discriminate].
  injection H as <-. auto.
Qed.

Lemma transferOwnership_Ok_inv (e : Env) (s : State) (newOwner : address)
    (s' : State) :
  transferOwnership e s newOwner = Ok s' ->
  msg_sender e = owner s /\ newOwner <> 0 /\
  s' = emit (OwnershipTransferred (owner s) newOwner) (set_owner newOwner s).
Proof.
  unfold transferOwnership. intros H.
  apply bind_Ok_inv in H as [[] [H1 H]]. apply onlyOwner_Ok_inv in H1.
  apply bind_Ok_inv in H as [[] [H2 H]]. apply require_Ok_inv in H2.
  apply negb_true_iff, N.eqb_neq in H2.
  injection H as <-. auto.
Qed.

Lemma renounceOwnership_Ok_inv (e : Env) (s : State) (s' : State) :
  renounceOwnership e s = Ok s' ->
  msg_sender e = owner s /\
  s' = emit (OwnershipTransferred (owner s) 0) (set_owner 0 s).
Proof.
  unfold renounceOwnership. intros H.
  apply bind_Ok_inv in H as [[] [H1 H]]. apply onlyOwner_Ok_inv in H1.
  injection H as <-. auto.
Qed.

(** What a successful call does to the reporter scores. *)
Lemma call_reporterScores (reportIdOf : hash) (e : Env) (c : Call)
    (s s' : State) :
  call reportIdOf e c s = Ok s' ->
  reporterScores s' = reporterScores s \/
  exists (a : address) (v : uint256),
    reporterScores s' = <[a := v]> (reporterScores s) /\
    (v = 100 \/ (v = rd (reporterScores s) a + 1 /\
                 rd (reporterScores s) a < 100) \/
     v = rd (reporterScores s) a - 5).
Proof.
  destruct c as [target t score ev value|id isValid|v|v|fee reward| |value
                 |newOwner| ]; cbn [call]; intros H.
  - apply reportThreat_Ok_inv in H as (_ & _ & _ & _ & ->).
    unfold report_outcome. simpl_state.
    destruct (N.ltb_spec (rd (reporterScores s) (msg_sender e)) 100);
      [right; eauto 8 | left; reflexivity].
  - apply validateReport_Ok_inv in H as (_ & _ & _ & _ & _ & ->).
    unfold validation_outcome. simpl_state. destruct isValid.
    + destruct (N.ltb_spec (rd (reporterScores s)
                  (reporter (rd (threatReports s) id))) 100);
        [right; eauto 8 | left; reflexivity].
    + destruct (0 <? _); [right; eauto 8 | left; reflexivity].
  - apply addValidator_Ok_inv in H as (_ & _ & _ & ->). simpl_state.
    right. eauto 8.
  - apply removeValidator_Ok_inv in H as (_ & _ & ->). left. reflexivity.
  - apply updateFees_Ok_inv in H as (_ & ->). left. reflexivity.
  - apply emergencyWithdraw_Ok_inv in H as (_ & _ & ->). left. reflexivity.
  - injection H as <-. left. reflexivity.
  - apply transferOwnership_Ok_inv in H as (_ & _ & ->). left. reflexivity.
  - apply renounceOwnership_Ok_inv in H as (_ & ->). left. reflexivity.
Qed.

(** A call other than a report leaves the reputations, the count of targets
    and the count of flagged targets alone; a report leaves them as
    [report_outcome] says. *)
Lemma call_reputations (reportIdOf : hash) (e : Env) (c : Call)
    (s s' : State) :
  call reportIdOf e c s = Ok s' ->
  (contractReputations s' = contractReputations s /\
   totalContracts (metrics s') = totalContracts (metrics s) /\
   flaggedContracts (metrics s') = flaggedContracts (metrics s)) \/
  (exists target t score ev value,
     c = ReportThreat target t score ev value /\ score <= MAX_RISK_SCORE /\
     s' = report_outcome reportIdOf e s target t score ev value).
Proof.
  destruct c as [target t score ev value|id isValid|v|v|fee reward| |value
                 |newOwner| ]; cbn [call]; intros H.
  - apply reportThreat_Ok_inv in H as (Hs & _ & _ & _ & ->).
    right. eauto 10.
  - apply validateReport_Ok_inv in H as (_ & _ & _ & _ & _ & ->).
    left. destruct isValid; auto.
  - apply addValidator_Ok_inv in H as (_ & _ & _ & ->). left. auto.
  - apply removeValidator_Ok_inv in H as (_ & _ & ->). left. auto.
  - apply updateFees_Ok_inv in H as (_ & ->). left. auto.
  - apply emergencyWithdraw_Ok_inv in H as (_ & _ & ->). left. auto.
  - injection H as <-. left. auto.
  - apply transferOwnership_Ok_inv in H as (_ & _ & ->). left. auto.
  - apply renounceOwnership_Ok_inv in H as (_ & ->). left. auto.
Qed.

(** ** Counters of the reachable ledgers *)

Lemma call_reportIdCounter (reportIdOf : hash) (e : Env) (c : Call)
    (s s' : State) :
  call reportIdOf e c s = Ok s' -> reportIdCounter s <= reportIdCounter s'.
Proof.
  intros H. destruct c; cbn [call] in H.
  - apply reportThreat_Ok_inv in H as (_ & _ & _ & _ & ->).
    unfold report_outcome. simpl_state. lia.
  - apply validateReport_Ok_inv in H as (_ & _ & _ & _ & _ & ->).
    reflexivity.
  - apply addValidator_Ok_inv in H as (_ & _ & _ & ->). reflexivity.
  - apply removeValidator_Ok_inv in H as (_ & _ & ->). reflexivity.
  - apply updateFees_Ok_inv in H as (_ & ->). reflexivity.
  - apply emergencyWithdraw_Ok_inv in H as (_ & _ & ->). reflexivity.
  - injection H as <-. reflexivity.
  - apply transferOwnership_Ok_inv in H as (_ & _ & ->). reflexivity.
  - apply renounceOwnership_Ok_inv in H as (_ & ->). reflexivity.
Qed.

(** On a reachable ledger no counter of a target, and no count of targets,
    exceeds the number of reports filed. *)
Lemma counters_bounded_inv (reportIdOf : hash) (s : State) :
  reachable reportIdOf s -> counters_bounded s.
Proof.
  induction 1 as [e|e c s s' _ [IHn IH] H].
  - split; [reflexivity|]. intros a. unfold constructor. simpl_state.
    rewrite rd_empty. cbn. repeat split; intros; lia.
  - pose proof (call_reportIdCounter reportIdOf e c s s' H) as Hctr.
    apply call_reputations in H
      as [(Hr & Ht & _)|(target & t & score & ev & value & _ & Hs & ->)].
    + unfold counters_bounded. rewrite Hr, Ht. split; [lia|].
      intros a. destruct (IH a) as (H1 & H2 & H3).
      repeat split; try lia. intros t. pose proof (H3 t). lia.
    + unfold counters_bounded, report_outcome. simpl_state. split.
      { destruct (_ =? 0); lia. }
      intros a. destruct (IH a) as (H1 & H2 & H3).
      unfold MAX_RISK_SCORE in Hs.
      destruct (N.eq_dec target a) as [->|Hne].
      * rewrite rd_insert_eq. simpl_state. repeat split; try lia.
        intros t'. pose proof (H3 t'). pose proof (H3 t).
        destruct (decide (t = t')) as [->|Htt].
        -- rewrite set_count_eq. lia.
        -- rewrite set_count_ne by assumption. lia.
      * rewrite rd_insert_ne by assumption. repeat split; try lia.
        intros t'. pose proof (H3 t'). lia.
Qed.

(** A reachable ledger on which fewer than 2^256 / 100 reports were filed
    has headroom for a further report. *)
Lemma report_headroom_when_reachable (reportIdOf : hash) (s : State)
    (target : address) (t : ThreatType) :
  reachable reportIdOf s ->
  100 * (reportIdCounter s + 1) <= MAX_UINT256 ->
  report_headroom s target t MAX_RISK_SCORE.
Proof.
  intros H Hfew. apply counters_bounded_inv in H as [Hn H].
  destruct (H target) as (H1 & H2 & H3). pose proof (H3 t).
  unfold report_headroom, MAX_RISK_SCORE. cbn zeta. repeat split; lia.
Qed.

Lemma report_headroom_le (s : State) (target : address) (t : ThreatType)
    (score : uint256) :
  score <= MAX_RISK_SCORE -> report_headroom s target t MAX_RISK_SCORE ->
  report_headroom s target t score.
Proof.
  unfold report_headroom. cbn zeta. intros Hs (H1 & H2 & H3 & H4 & H5).
  repeat split; try assumption. lia.
Qed.

(** ** The claims about the views *)

(** C5. [getRiskAnalysis] always returns; its score is the integer average
    [totalScore / reportCount] of the target when it has reports and 0 when
    it has none, and its level is SAFE up to 30, RISKY from 31 to 70 and
    DANGEROUS above 70 (30 is SAFE, 31 and 70 are RISKY, 71 is
    DANGEROUS). *)
Theorem getRiskAnalysis_average_and_bands (s : State) (a : address) :
  exists ra : RiskAnalysis,
    getRiskAnalysis s a = Ok ra /\
    ra_reportCount ra = reportCount (rd (contractReputations s) a) /\
    (0 < ra_reportCount ra ->
     ra_riskScore ra =
       totalScore (rd (contractReputations s) a) / ra_reportCount ra) /\
    (ra_reportCount ra = 0 -> ra_riskScore ra = 0) /\
    (ra_riskScore ra <= 30 -> ra_riskLevel ra = SAFE) /\
    (31 <= ra_riskScore ra <= 70 -> ra_riskLevel ra = RISKY) /\
    (70 < ra_riskScore ra -> ra_riskLevel ra = DANGEROUS) /\
    (ra_riskScore ra = 30 -> ra_riskLevel ra = SAFE) /\
    (ra_riskScore ra = 31 -> ra_riskLevel ra = RISKY) /\
    (ra_riskScore ra = 70 -> ra_riskLevel ra = RISKY) /\
    (ra_riskScore ra = 71 -> ra_riskLevel ra = DANGEROUS).
Proof.
  eexists. split; [apply getRiskAnalysis_eq|].
  cbn [ra_reportCount ra_riskScore ra_riskLevel]. unfold average.
  set (rc := reportCount (rd (contractReputations s) a)).
  set (ts := totalScore (rd (contractReputations s) a)).
  destruct (N.ltb_spec 0 rc) as [Hrc|Hrc].
  - set (q := ts / rc).
    destruct (N.leb_spec q 30), (N.leb_spec q 70);
      repeat split; intros; try reflexivity; lia.
  - cbn [N.leb N.compare]. repeat split; intros; try reflexivity; lia.
Qed.

(** C6. [isHighRiskContract] returns the score [getRiskAnalysis] returns,
    and its flag is set exactly when that score is above 70, which is
    exactly when [getRiskAnalysis] classifies the target as DANGEROUS. *)
Theorem isHighRiskContract_consistent (s : State) (a : address) :
  exists (ra : RiskAnalysis) (isHighRisk : bool) (riskScore : uint256),
    getRiskAnalysis s a = Ok ra /\
    isHighRiskContract s a = Ok (isHighRisk, riskScore) /\
    riskScore = ra_riskScore ra /\
    (isHighRisk = true <-> 70 < riskScore) /\
    (isHighRisk = true <-> ra_riskLevel ra = DANGEROUS).
Proof.
  do 3 eexists. split; [apply getRiskAnalysis_eq|].
  split; [apply isHighRiskContract_eq|].
  cbn [ra_riskScore ra_riskLevel]. split; [reflexivity|].
  split; [apply N.ltb_lt|].
  destruct (N.ltb_spec 70 (average s a)), (N.leb_spec (average s a) 30),
    (N.leb_spec (average s a) 70); split; intros; try reflexivity;
    try discriminate; lia.
Qed.

(** C8. The threat types [getRiskAnalysis] returns are the members of the
    enumeration whose counter for the target is at least one, in the order
    of their ordinals. *)
Theorem threatTypes_in_enumeration_order (s : State) (a : address) :
  exists ra : RiskAnalysis,
    getRiskAnalysis s a = Ok ra /\
    ra_threatTypes ra =
      List.filter
        (fun t => 1 <=? threatCounts (rd (contractReputations s) a) t)
        all_threat_types /\
    (forall t, t ∈ ra_threatTypes ra <->
               1 <= threatCounts (rd (contractReputations s) a) t) /\
    (forall i j ti tj, ra_threatTypes ra !! i = Some ti ->
       ra_threatTypes ra !! j = Some tj -> (i < j)%nat ->
       ThreatType_ordinal ti < ThreatType_ordinal tj).
Proof.
  eexists. split; [apply getRiskAnalysis_eq|]. cbn [ra_threatTypes].
  set (f := threatCounts (rd (contractReputations s) a)).
  assert (Hext : forall t, (0 <? f t) = (1 <=? f t)).
  { intros t. destruct (N.ltb_spec 0 (f t)), (N.leb_spec 1 (f t));
      try reflexivity; lia. }
  split.
  { unfold all_threat_types. cbn [List.filter]. rewrite !Hext. reflexivity. }
  split.
  { intros t. rewrite list_elem_of_In, List.filter_In. rewrite N.ltb_lt.
    split; [intros [_ H]; lia | intros H; split; [|lia]].
    destruct t; cbn; tauto. }
  unfold all_threat_types. cbn [List.filter].
  destruct (0 <? f HONEYPOT), (0 <? f RUGPULL), (0 <? f MEV_VULNERABILITY),
    (0 <? f SANDWICH_RISK), (0 <? f PHISHING), (0 <? f MALICIOUS_CONTRACT);
    intros i j ti tj Hi Hj Hlt;
    repeat (destruct i as [|i]; try discriminate Hi);
    repeat (destruct j as [|j]; try discriminate Hj);
    try lia; injection Hi as <-; injection Hj as <-; reflexivity.
Qed.

(** ** The claims about flagging and penalties *)

(** C1. The code does not count a flagged target: a successful
    [reportThreat] leaves [flaggedContracts] as it was, whatever the average
    of the target becomes.  The guard of the increment asks that the average
    be above 70 and that [_isAlreadyFlagged] be false, and both read the
    entry after the update ([_updateContractReputation_eq]). *)
Theorem reportThreat_never_flags (reportIdOf : hash) (e : Env) (s : State)
    (target : address) (t : ThreatType) (score : uint256) (ev : string)
    (value : uint256) (s' : State) :
  reportThreat reportIdOf e s target t score ev value = Ok s' ->
  flaggedContracts (metrics s') = flaggedContracts (metrics s).
Proof.
  intros H. apply reportThreat_Ok_inv in H as (_ & _ & _ & _ & ->).
  reflexivity.
Qed.

(** The first report of the example chain, with score 85. *)
Lemma reportThreat_never_flags_witness :
  flaggedContracts (metrics after_report) = flaggedContracts (metrics genesis).
Proof.
  apply (reportThreat_never_flags counter_id (account 2) genesis 7 HONEYPOT 85
           "QmEvidence" FEE after_report).
  vm_compute. reflexivity.
Defined.

(** After one report with score 85 against a fresh target the target is
    high risk, one contract is counted, and none is flagged. *)
Lemma first_report_85_is_not_flagged :
  reportThreat counter_id (account 2) genesis 7 HONEYPOT 85 "QmEvidence" FEE
    = Ok after_report /\
  isHighRiskContract after_report 7 = Ok (true, 85) /\
  getSecurityMetrics after_report = mkSecurityMetrics 1 0 0 0.
Proof. vm_compute. repeat split. Qed.

(** C2. A negative validation against a reporter whose score is 1, 2, 3 or
    4 aborts: the guard of the penalty is [score > 0], and the checked
    subtraction of 5 then fails with the arithmetic panic. *)
Theorem negative_validation_panics_below_five (e : Env) (s : State)
    (id : bytes32) :
  rd (validators s) (msg_sender e) = true ->
  reporter (rd (threatReports s) id) <> 0 ->
  validated (rd (threatReports s) id) = false ->
  validate_headroom s id ->
  0 < rd (reporterScores s) (reporter (rd (threatReports s) id)) < 5 ->
  validateReport e s id false = Err (Panic PANIC_ARITHMETIC).
Proof. apply validateReport_negative_panic. Qed.

(** The deployer rejects the report of the example chain, whose reporter
    has score 1. *)
Lemma negative_validation_panics_below_five_witness :
  validateReport (account 1) after_report 1 false
    = Err (Panic PANIC_ARITHMETIC).
Proof.
  apply (negative_validation_panics_below_five (account 1) after_report 1).
  - vm_compute. reflexivity.
  - vm_compute. discriminate.
  - vm_compute. reflexivity.
  - repeat split; vm_compute; reflexivity.
  - split; vm_compute; reflexivity.
Defined.

(** A fresh identity has score 0 and score 1 after its first report; the
    negative validation of that report is rolled back. *)
Lemma fresh_reporter_penalty_reverts :
  rd (reporterScores genesis) 2 = 0 /\
  rd (reporterScores after_report) 2 = 1 /\
  exec counter_id (account 1) (ValidateReport 1 false) after_report
    = (after_report, Some (Panic PANIC_ARITHMETIC)).
Proof. vm_compute. repeat split. Qed.

(** ** The claim about the rejections of a validation *)

(** C3. [validateReport] rejects with a reason whenever the caller is not a
    validator, the report is unknown or the report is already validated, and
    every rejection leaves the ledger as it was.  These are not its only
    rejections: past the three checks it aborts with the arithmetic panic
    when a counter it increments is at the ceiling, and with a failed
    transfer when the reward is due and the validator's account refuses it.
    For a positive verdict, and for a negative verdict against a reporter
    whose score is 0 or at least 5, it rejects exactly in these cases.  In
    every other such case it succeeds: it marks the report validated, counts
    the validation, increments [validatedReports] and raises the reporter's
    score by one below 100 if the report is valid, increments
    [falsePositives] and lowers the score by 5 (from 0: leaves it) if it is
    not, and pays the reward if the ledger holds it; the report can then not
    be validated again. *)
Theorem validateReport_rejections_and_effects (reportIdOf : hash) (e : Env)
    (s : State) (id : bytes32) (isValid : bool) :
  let report := rd (threatReports s) id in
  let score := rd (reporterScores s) (reporter report) in
  let check_fails :=
    rd (validators s) (msg_sender e) = false \/ reporter report = 0 \/
    validated report = true in
  let checks_pass :=
    rd (validators s) (msg_sender e) = true /\ reporter report <> 0 /\
    validated report = false in
  let penalty_in_range := isValid = false -> score = 0 \/ 5 <= score in
  (check_fails ->
   exists reason, validateReport e s id isValid = Err (Revert reason)) /\
  (forall er, validateReport e s id isValid = Err er ->
     exec reportIdOf e (ValidateReport id isValid) s = (s, Some er)) /\
  (forall er, validateReport e s id isValid = Err er ->
     check_fails \/ er = Panic PANIC_ARITHMETIC \/ er = TransferFailed) /\
  (checks_pass -> validation_overflows s id isValid ->
   validateReport e s id isValid = Err (Panic PANIC_ARITHMETIC)) /\
  (checks_pass -> ~ validation_overflows s id isValid -> penalty_in_range ->
   reward_refused e s -> validateReport e s id isValid = Err TransferFailed) /\
  (penalty_in_range ->
   ((exists er, validateReport e s id isValid = Err er) <->
    check_fails \/ validation_overflows s id isValid \/ reward_refused e s)) /\
  (checks_pass -> ~ validation_overflows s id isValid -> penalty_in_range ->
   ~ reward_refused e s ->
   exists s',
     validateReport e s id isValid = Ok s' /\
     validated (rd (threatReports s') id) = true /\
     validationCount (rd (threatReports s') id) = validationCount report + 1 /\
     validatedReports (metrics s') =
       (if isValid then validatedReports (metrics s) + 1
        else validatedReports (metrics s)) /\
     falsePositives (metrics s') =
       (if isValid then falsePositives (metrics s)
        else falsePositives (metrics s) + 1) /\
     rd (reporterScores s') (reporter report) =
       (if isValid then (if score <? 100 then score + 1 else score)
        else score - 5) /\
     balance s' =
       (if validationReward s <=? balance s
        then balance s - validationReward s else balance s) /\
     (forall e' b, exists reason,
        validateReport e' s' id b = Err (Revert reason))).
Proof.
  cbn zeta.
  assert (Hrefused : rd (validators s) (msg_sender e) = true /\
            reporter (rd (threatReports s) id) <> 0 /\
            validated (rd (threatReports s) id) = false ->
            ~ validation_overflows s id isValid ->
            (isValid = false ->
             rd (reporterScores s) (reporter (rd (threatReports s) id)) = 0 \/
             5 <= rd (reporterScores s)
                    (reporter (rd (threatReports s) id))) ->
            reward_refused e s ->
            validateReport e s id isValid = Err TransferFailed).
  { intros (Hv & Hr & Hnv) Hroom Hscore Href.
    rewrite (validateReport_run e s id isValid Hv Hr Hnv Hroom Hscore).
    apply reward_refused_iff in Href as ->. reflexivity. }
  split; [apply validateReport_check_fails|].
  split; [intros er H; unfold exec, call; rewrite H; reflexivity|].
  split.
  { intros er Her.
    destruct (validation_checks_dec e s id) as [Hf|(Hv & Hr & Hnv)]; [auto|].
    right. apply (validateReport_Err_inv e s id isValid); assumption. }
  split; [intros (Hv & Hr & Hnv); apply validateReport_overflow; assumption|].
  split; [exact Hrefused|]. split.
  - intros Hscore. split.
    + intros [er Her].
      destruct (validation_checks_dec e s id) as [Hf|(Hv & Hr & Hnv)];
        [auto|].
      destruct (validation_overflows_dec s id isValid) as [Ho|Hroom];
        [auto|].
      rewrite (validateReport_run e s id isValid Hv Hr Hnv Hroom Hscore)
        in Her.
      right. right. apply reward_refused_iff.
      destruct (_ && _); [reflexivity | discriminate].
    + intros Hcase.
      destruct (validation_checks_dec e s id) as [Hf|Hp].
      { destruct (validateReport_check_fails e s id isValid Hf) as [r Hr].
        eauto. }
      destruct (validation_overflows_dec s id isValid) as [Ho|Hroom].
      { destruct Hp as (Hv & Hr & Hnv). eexists.
        apply validateReport_overflow; eassumption. }
      destruct Hcase as [Hf|[Ho|Href]].
      * destruct Hp as (Hv & Hr & Hnv).
        destruct Hf as [Hf|[Hf|Hf]]; congruence.
      * contradiction.
      * eexists. apply Hrefused; assumption.
  - intros (Hv & Hr & Hnv) Hroom Hscore Hpay.
    rewrite (validateReport_run e s id isValid Hv Hr Hnv Hroom Hscore).
    assert (Hgo : (validationReward s <=? balance s)
                  && negb (accepts_transfer e (msg_sender e)) = false).
    { destruct (_ && _) eqn:Hb; [|reflexivity].
      apply reward_refused_iff in Hb. contradiction. }
    rewrite Hgo. eexists. split; [reflexivity|].
    unfold validation_outcome. simpl_state. rewrite rd_insert_eq. simpl_state.
    split; [reflexivity|]. split; [reflexivity|].
    split; [destruct isValid; reflexivity|].
    split; [destruct isValid; reflexivity|].
    split; [|split; [reflexivity|]].
    + destruct isValid.
      * destruct (_ <? 100); [apply rd_insert_eq | reflexivity].
      * destruct (N.ltb_spec 0
          (rd (reporterScores s) (reporter (rd (threatReports s) id))));
          [apply rd_insert_eq | lia].
    + intros e' b. apply validateReport_check_fails. simpl_state.
      rewrite rd_insert_eq. simpl_state. auto.
Qed.

(** The deployer confirms the report of the example chain. *)
Lemma validateReport_rejections_and_effects_witness :
  exists s',
    validateReport (account 1) after_report 1 true = Ok s' /\
    validated (rd (threatReports s') 1) = true /\
    validatedReports (metrics s') = 1 /\
    rd (reporterScores s') 2 = 2.
Proof.
  destruct (proj2 (proj2 (proj2 (proj2 (proj2 (proj2
              (validateReport_rejections_and_effects counter_id
                 (account 1) after_report 1 true)))))))
    as (s' & H1 & H2 & _ & H3 & _ & H4 & _).
  - repeat split; vm_compute; first [reflexivity | discriminate].
  - intros [H|H]; vm_compute in H; apply H; reflexivity.
  - discriminate.
  - intros [_ H]. discriminate H.
  - exists s'. repeat split; assumption.
Defined.

(** A validator that refuses the reward is rejected although it is a
    validator and the report is known and not yet validated. *)
Lemma validateReport_rejects_a_refused_reward :
  rd (validators after_report) (msg_sender (refusing 1)) = true /\
  reporter (rd (threatReports after_report) 1) = 2 /\
  validated (rd (threatReports after_report) 1) = false /\
  validateReport (refusing 1) after_report 1 true = Err TransferFailed.
Proof. vm_compute. repeat split. Qed.

(** ** The claims about filing a report *)

Lemma reportThreat_rejects (reportIdOf : hash) e s target t score ev value :
  value < reportFee s \/ target = 0 \/ MAX_RISK_SCORE < score \/
  ev = EmptyString ->
  exists reason,
    reportThreat reportIdOf e s target t score ev value = Err (Revert reason).
Proof.
  intros H. unfold reportThreat. simpl_state.
  destruct (N.leb_spec score MAX_RISK_SCORE) as [Hscore|_];
    [|eexists; reflexivity].
  destruct (N.leb_spec (reportFee s) value) as [Hfee|_];
    [|eexists; reflexivity].
  destruct (N.eqb_spec target 0) as [_|Ht]; [eexists; reflexivity|].
  destruct (0 <? N.of_nat (String.length ev)) eqn:Hev;
    [|eexists; reflexivity].
  exfalso. destruct H as [H|[H|[H|H]]].
  - lia.
  - contradiction.
  - lia.
  - subst ev. discriminate.
Qed.

(** C4. [reportThreat] rejects with a reason whenever the paid amount is
    below [reportFee], the target is the zero address, the risk score is
    above 100 or the evidence is empty; any other rejection is the arithmetic
    panic of a counter at the ceiling, which cannot occur on a ledger whose
    counters have headroom for one more report, as every reachable ledger
    with fewer than 2^256 / 100 reports has; a rejection
    leaves the ledger as it was; score 101 is rejected, and score 100 is
    accepted with a sufficient fee, a target and evidence. *)
Theorem reportThreat_rejects_exactly (reportIdOf : hash) (e : Env) (s : State)
    (target : address) (t : ThreatType) (score : uint256) (ev : string)
    (value : uint256) :
  let check_fails :=
    value < reportFee s \/ target = 0 \/ MAX_RISK_SCORE < score \/
    ev = EmptyString in
  (check_fails ->
   exists reason,
     reportThreat reportIdOf e s target t score ev value
       = Err (Revert reason)) /\
  (forall er, reportThreat reportIdOf e s target t score ev value = Err er ->
     check_fails \/ er = Panic PANIC_ARITHMETIC) /\
  (report_headroom s target t MAX_RISK_SCORE ->
   ((exists er, reportThreat reportIdOf e s target t score ev value = Err er)
    <-> check_fails)) /\
  (reachable reportIdOf s -> 100 * (reportIdCounter s + 1) <= MAX_UINT256 ->
   ((exists er, reportThreat reportIdOf e s target t score ev value = Err er)
    <-> check_fails)) /\
  (forall er, reportThreat reportIdOf e s target t score ev value = Err er ->
     exec reportIdOf e (ReportThreat target t score ev value) s
       = (s, Some er)) /\
  reportThreat reportIdOf e s target t 101 ev value
    = Err (Revert "Risk score exceeds maximum") /\
  (report_headroom s target t MAX_RISK_SCORE -> reportFee s <= value ->
   target <> 0 -> ev <> EmptyString ->
   exists s', reportThreat reportIdOf e s target t 100 ev value = Ok s').
Proof.
  cbn zeta.
  assert (Hiff : report_headroom s target t MAX_RISK_SCORE ->
    ((exists er, reportThreat reportIdOf e s target t score ev value = Err er)
     <-> value < reportFee s \/ target = 0 \/ MAX_RISK_SCORE < score \/
         ev = EmptyString)).
  { intros Hroom. split.
    - intros [er Her].
      destruct (N.lt_ge_cases value (reportFee s)) as [|Hfee]; [auto|].
      destruct (N.eq_dec target 0) as [|Ht]; [auto|].
      destruct (N.lt_ge_cases MAX_RISK_SCORE score) as [|Hscore]; [auto|].
      destruct (decide (ev = EmptyString)) as [|Hev]; [auto|].
      rewrite reportThreat_Ok in Her;
        [discriminate | assumption.. | apply report_headroom_le; assumption].
    - intros H. destruct (reportThreat_rejects reportIdOf e s target t score
                            ev value H) as [reason Hr]. eauto. }
  split; [apply reportThreat_rejects|].
  split.
  { intros er Her. apply reportThreat_Err_inv in Her
      as [[H _]|[[H _]|[[H _]|[[H _]|H]]]]; auto 6. }
  split; [exact Hiff|].
  split; [intros Hreach Hfew; apply Hiff;
          apply (report_headroom_when_reachable reportIdOf); assumption|].
  split; [intros er H; unfold exec, call; rewrite H; reflexivity|].
  split; [reflexivity|].
  intros Hroom Hfee Ht Hev. eexists.
  apply reportThreat_Ok; try assumption. unfold MAX_RISK_SCORE. lia.
Qed.

(** On the example chain score 100 is accepted, score 101 is rejected, and
    the largest score is rejected by the check of the score. *)
Lemma reportThreat_rejects_exactly_witness :
  (exists s', reportThreat counter_id (account 3) after_report 7 HONEYPOT 100
                "QmEvidence" FEE = Ok s') /\
  reportThreat counter_id (account 3) after_report 7 HONEYPOT 101
    "QmEvidence" FEE = Err (Revert "Risk score exceeds maximum") /\
  ((exists er, reportThreat counter_id (account 3) after_report 7 HONEYPOT
                 MAX_UINT256 "QmEvidence" FEE = Err er)
   <-> FEE < reportFee after_report \/ 7 = 0 \/
       MAX_RISK_SCORE < MAX_UINT256 \/ "QmEvidence" = EmptyString).
Proof.
  assert (Hroom : report_headroom after_report 7 HONEYPOT MAX_RISK_SCORE)
    by (repeat split; vm_compute; first [reflexivity | discriminate]).
  destruct (reportThreat_rejects_exactly counter_id (account 3) after_report 7
              HONEYPOT 100 "QmEvidence" FEE)
    as (_ & _ & _ & _ & _ & H101 & H100).
  destruct (reportThreat_rejects_exactly counter_id (account 3) after_report 7
              HONEYPOT MAX_UINT256 "QmEvidence" FEE) as (_ & _ & Hiff & _).
  split; [|split].
  - apply H100;
      [exact Hroom | vm_compute; discriminate | discriminate | discriminate].
  - exact H101.
  - exact (Hiff Hroom).
Defined.

(** C7. A valid report (on a ledger with headroom) is accepted, and it adds
    one to the target's [reportCount], the submitted score to its
    [totalScore], one to the counter of the reported threat type and nothing
    to the other counters; [totalContracts] grows by one if the target had no
    report before and stays as it is otherwise. *)
Theorem reportThreat_counts (reportIdOf : hash) (e : Env) (s : State)
    (target : address) (t : ThreatType) (score : uint256) (ev : string)
    (value : uint256) :
  let before := rd (contractReputations s) target in
  score <= MAX_RISK_SCORE -> reportFee s <= value -> target <> 0 ->
  ev <> EmptyString -> report_headroom s target t score ->
  exists s',
    reportThreat reportIdOf e s target t score ev value = Ok s' /\
    let after := rd (contractReputations s') target in
    reportCount after = reportCount before + 1 /\
    totalScore after = totalScore before + score /\
    threatCounts after t = threatCounts before t + 1 /\
    (forall t', t' <> t -> threatCounts after t' = threatCounts before t') /\
    (reportCount before = 0 ->
     totalContracts (metrics s') = totalContracts (metrics s) + 1) /\
    (reportCount before <> 0 ->
     totalContracts (metrics s') = totalContracts (metrics s)).
Proof.
  cbn zeta. intros H1 H2 H3 H4 Hroom. eexists.
  split; [apply reportThreat_Ok; assumption|].
  unfold report_outcome. simpl_state. rewrite rd_insert_eq. simpl_state.
  split; [reflexivity|]. split; [reflexivity|].
  split; [apply set_count_eq|].
  split; [intros t' Hne; apply set_count_ne; congruence|].
  split.
  - intros ->. reflexivity.
  - intros Hne. apply N.eqb_neq in Hne as ->. reflexivity.
Qed.

(** A second report against the target of the example chain. *)
Lemma reportThreat_counts_witness :
  exists s',
    reportThreat counter_id (account 3) after_report 7 RUGPULL 40
      "QmSecond" FEE = Ok s' /\
    reportCount (rd (contractReputations s') 7) = 2 /\
    totalScore (rd (contractReputations s') 7) = 125 /\
    threatCounts (rd (contractReputations s') 7) RUGPULL = 1 /\
    totalContracts (metrics s') = 1.
Proof.
  destruct (reportThreat_counts counter_id (account 3) after_report 7 RUGPULL
              40 "QmSecond" FEE)
    as (s' & H & Hc & Hs & Ht & _ & _ & Hn).
  - vm_compute. discriminate.
  - vm_compute. discriminate.
  - discriminate.
  - discriminate.
  - repeat split; vm_compute; first [reflexivity | discriminate].
  - exists s'. split; [exact H|]. split; [exact Hc|]. split; [exact Hs|].
    split; [exact Ht|]. apply Hn. vm_compute. discriminate.
Defined.

(** C9. Neither [reportThreat] nor [_updateContractReputation] can fail
    with the division-by-zero panic: where [_isAlreadyFlagged] is called the
    entry holds the incremented [reportCount], which is at least one, so
    the division returns. *)
Theorem reportThreat_never_divides_by_zero (reportIdOf : hash) (e : Env)
    (s : State) (target : address) (t : ThreatType) (score : uint256)
    (ev : string) (value : uint256) :
  reportThreat reportIdOf e s target t score ev value
    <> Err (Panic PANIC_DIV_BY_ZERO) /\
  _updateContractReputation e s target t score
    <> Err (Panic PANIC_DIV_BY_ZERO) /\
  (forall (written : ContractReputation) (count : uint256),
     checked_add (reportCount (rd (contractReputations s) target)) 1
       = Ok count ->
     reportCount written = count ->
     _isAlreadyFlagged
       (set_contractReputations
          (<[target := written]> (contractReputations s)) s) target
       = Ok (70 <? totalScore written / reportCount written)).
Proof.
  split; [|split].
  - intros H. apply reportThreat_Err_inv in H
      as [[_ H]|[[_ H]|[[_ H]|[[_ H]|H]]]]; discriminate.
  - rewrite _updateContractReputation_eq. cbn zeta. intros H.
    apply bind_Err_inv in H as [H|[n [_ H]]].
    { destruct (reportCount _ =? 0);
        [apply checked_add_Err_inv in H|]; discriminate. }
    apply bind_Err_inv in H as [H|[total [_ H]]].
    { apply checked_add_Err_inv in H. discriminate. }
    apply bind_Err_inv in H as [H|[count [_ H]]].
    { apply checked_add_Err_inv in H. discriminate. }
    apply bind_Err_inv in H as [H|[tcount [_ H]]].
    { apply checked_add_Err_inv in H. discriminate. }
    discriminate.
  - intros written count Hc Hw.
    apply checked_add_Ok_inv in Hc as [-> _].
    unfold _isAlreadyFlagged. simpl_state. rewrite rd_insert_eq.
    rewrite checked_div_Ok by lia. reflexivity.
Qed.

(** ** The claim about the bound of the reporter scores *)

(** C10. Every reporter score is at most 100 on the deployed ledger, and
    every call that succeeds keeps it so: the constructor and [addValidator]
    write exactly 100, the positive adjustment adds one only below 100, and
    the negative adjustment never raises a score. *)
Theorem reporter_scores_stay_within_100 (reportIdOf : hash) :
  (forall e, scores_bounded (constructor e)) /\
  (forall e c s s', scores_bounded s -> call reportIdOf e c s = Ok s' ->
     scores_bounded s') /\
  (forall e, rd (reporterScores (constructor e)) (msg_sender e) = 100) /\
  (forall e s v s', addValidator e s v = Ok s' ->
     rd (reporterScores s') v = 100) /\
  (forall s r s', _updateReporterScore s r true = Ok s' ->
     rd (reporterScores s') r =
       if rd (reporterScores s) r <? 100 then rd (reporterScores s) r + 1
       else rd (reporterScores s) r) /\
  (forall s r s', _updateReporterScore s r false = Ok s' ->
     rd (reporterScores s') r <= rd (reporterScores s) r).
Proof.
  split; [|split; [|split; [|split; [|split]]]].
  - intros e a. unfold constructor. simpl_state.
    destruct (N.eq_dec (msg_sender e) a) as [->|Hne].
    + rewrite rd_insert_eq. lia.
    + rewrite rd_insert_ne, rd_empty by assumption. unfold zero, uint256_zero.
      lia.
  - intros e c s s' Hs H b.
    apply call_reporterScores in H as [->|(a & v & -> & Hv)]; [apply Hs|].
    destruct (N.eq_dec a b) as [->|Hne].
    + rewrite rd_insert_eq. pose proof (Hs b). lia.
    + rewrite rd_insert_ne by assumption. apply Hs.
  - intros e. unfold constructor. simpl_state. apply rd_insert_eq.
  - intros e s v s' H. apply addValidator_Ok_inv in H as (_ & _ & _ & ->).
    simpl_state. apply rd_insert_eq.
  - intros s r s'. rewrite _updateReporterScore_positive. intros [= <-].
    destruct (_ <? 100); [apply rd_insert_eq | reflexivity].
  - intros s r s'. unfold _updateReporterScore.
    destruct (0 <? rd (reporterScores s) r); [|intros [= <-]; lia].
    intros H. apply bind_Ok_inv in H as (v & Hv & [= <-]).
    unfold checked_sub in Hv. destruct (5 <=? _); [|discriminate].
    injection Hv as <-. simpl_state. rewrite rd_insert_eq. lia.
Qed.

(** The bound after the first report of the example chain. *)
Lemma reporter_scores_stay_within_100_witness :
  scores_bounded after_report.
Proof.
  apply (proj1 (proj2 (reporter_scores_stay_within_100 counter_id))
           (account 2) (ReportThreat 7 HONEYPOT 85 "QmEvidence" FEE) genesis
           after_report).
  - apply (proj1 (reporter_scores_stay_within_100 counter_id)).
  - vm_compute. reflexivity.
Defined.

(** * Further properties of the ledger *)

(** The example chain is a run of the ledger. *)
Lemma example_chain_reachable : reachable counter_id after_report.
Proof.
  apply (reachable_step counter_id (account 2)
           (ReportThreat 7 HONEYPOT 85 "QmEvidence" FEE) genesis).
  - apply reachable_init.
  - vm_compute. reflexivity.
Qed.

(** ** What the metrics count *)

(** X1. On every ledger a run can reach, [getSecurityMetrics] reports no
    flagged contract: no call ever increments [flaggedContracts]. *)
Theorem flaggedContracts_is_zero_when_reachable (reportIdOf : hash)
    (s : State) :
  reachable reportIdOf s -> flaggedContracts (getSecurityMetrics s) = 0.
Proof.
  unfold getSecurityMetrics. induction 1 as [e|e c s s' _ IH H].
  - reflexivity.
  - apply call_reputations in H
      as [(_ & _ & ->)|(target & t & score & ev & value & _ & _ & ->)];
      assumption.
Qed.

(** An instance on the example chain. *)
Lemma flaggedContracts_is_zero_when_reachable_witness :
  flaggedContracts (getSecurityMetrics after_report) = 0.
Proof.
  apply (flaggedContracts_is_zero_when_reachable counter_id after_report).
  apply example_chain_reachable.
Defined.

(** ** Administration by the owner *)

(** X2. A caller other than the owner is rejected by [addValidator],
    [removeValidator], [updateFees] and [emergencyWithdraw] with the reason
    of [onlyOwner], whatever the arguments: the owner check runs first. *)
Theorem admin_calls_reject_strangers (e : Env) (s : State) :
  msg_sender e <> owner s ->
  (forall v, addValidator e s v = Err (Revert ONLY_OWNER)) /\
  (forall v, removeValidator e s v = Err (Revert ONLY_OWNER)) /\
  (forall fee reward, updateFees e s fee reward = Err (Revert ONLY_OWNER)) /\
  emergencyWithdraw e s = Err (Revert ONLY_OWNER).
Proof.
  intros H. apply onlyOwner_other in H.
  unfold addValidator, removeValidator, updateFees, emergencyWithdraw.
  rewrite H. repeat split.
Qed.

(** An instance on the example chain. *)
Lemma admin_calls_reject_strangers_witness :
  addValidator (account 2) genesis 2 = Err (Revert ONLY_OWNER) /\
  emergencyWithdraw (account 2) after_report = Err (Revert ONLY_OWNER).
Proof.
  split.
  - apply (admin_calls_reject_strangers (account 2) genesis).
    vm_compute. discriminate.
  - apply (admin_calls_reject_strangers (account 2) after_report).
    vm_compute. discriminate.
Defined.

(** X3. [addValidator] rejects exactly when the caller is not the owner, the
    address is zero or the address is a validator already.  When it succeeds
    the address is a validator with score 100, the flags and scores of all
    other addresses are as before, and so are reputations, reports, metrics,
    balance and owner; one [ValidatorAdded] event is appended. *)
Theorem addValidator_outcomes (e : Env) (s : State) (v : address) :
  ((exists er, addValidator e s v = Err er) <->
   msg_sender e <> owner s \/ v = 0 \/ rd (validators s) v = true) /\
  (forall s', addValidator e s v = Ok s' ->
     rd (validators s') v = true /\ rd (reporterScores s') v = 100 /\
     (forall a, a <> v ->
        rd (validators s') a = rd (validators s) a /\
        rd (reporterScores s') a = rd (reporterScores s) a) /\
     contractReputations s' = contractReputations s /\
     threatReports s' = threatReports s /\ metrics s' = metrics s /\
     balance s' = balance s /\ owner s' = owner s /\
     events s' = events s ++ [ValidatorAdded v]).
Proof.
  split; [split|].
  - intros [er Her].
    destruct (N.eq_dec (msg_sender e) (owner s)) as [Ho|]; [|auto].
    destruct (N.eq_dec v 0) as [|Hv]; [auto|].
    destruct (rd (validators s) v) eqn:Hval; [auto|].
    unfold addValidator in Her. rewrite onlyOwner_owner, Hval in Her
      by assumption.
    apply N.eqb_neq in Hv. rewrite Hv in Her. discriminate.
  - intros H. unfold addValidator.
    destruct (N.eq_dec (msg_sender e) (owner s)) as [Ho|Ho];
      [|rewrite onlyOwner_other by assumption; eexists; reflexivity].
    rewrite onlyOwner_owner by assumption. run_bind.
    destruct (N.eqb_spec v 0); [eexists; reflexivity|].
    destruct (rd (validators s) v); [eexists; reflexivity|].
    destruct H as [H|[H|H]]; [contradiction | contradiction | discriminate].
  - intros s' H. apply addValidator_Ok_inv in H as (_ & _ & _ & ->).
    simpl_state. rewrite !rd_insert_eq.
    split; [reflexivity|]. split; [reflexivity|].
    split; [|repeat split].
    intros a Ha. rewrite !rd_insert_ne by congruence. split; reflexivity.
Qed.

(** X4. After [removeValidator] the removed address is rejected by
    [validateReport] as not authorized, for every report and verdict; its
    reporter score is kept, and no other validator is touched. *)
Theorem removed_validator_cannot_validate (e : Env) (s : State) (v : address)
    (s' : State) :
  removeValidator e s v = Ok s' ->
  (forall e' id isValid, msg_sender e' = v ->
     validateReport e' s' id isValid
       = Err (Revert "Not authorized validator")) /\
  rd (reporterScores s') v = rd (reporterScores s) v /\
  (forall a, a <> v -> rd (validators s') a = rd (validators s) a).
Proof.
  intros H. apply removeValidator_Ok_inv in H as (_ & _ & ->).
  split; [|split].
  - intros e' id isValid <-. apply validateReport_not_validator.
    simpl_state. apply rd_insert_eq.
  - reflexivity.
  - intros a Ha. simpl_state. apply rd_insert_ne. congruence.
Qed.

(** An instance on the example chain. *)
Lemma removed_validator_cannot_validate_witness :
  exists s',
    removeValidator (account 1) after_report 1 = Ok s' /\
    validateReport (account 1) s' 1 true
      = Err (Revert "Not authorized validator").
Proof.
  eexists. split; [vm_compute; reflexivity|].
  eapply (removed_validator_cannot_validate (account 1) after_report 1);
    [vm_compute; reflexivity | reflexivity].
Defined.

(** X5. After [updateFees] the new fee is the one [reportThreat] checks: a
    report with a valid score paying less is rejected for an insufficient
    fee, and a valid report paying at least the new fee is accepted. *)
Theorem updateFees_gates_reports (reportIdOf : hash) (e : Env) (s : State)
    (fee reward : uint256) (s' : State) :
  updateFees e s fee reward = Ok s' ->
  reportFee s' = fee /\ validationReward s' = reward /\
  (forall e' target t score ev value,
     score <= MAX_RISK_SCORE -> value < fee ->
     reportThreat reportIdOf e' s' target t score ev value
       = Err (Revert "Insufficient fee")) /\
  (forall e' target t score ev value,
     score <= MAX_RISK_SCORE -> fee <= value -> target <> 0 ->
     ev <> EmptyString -> report_headroom s target t score ->
     exists s'', reportThreat reportIdOf e' s' target t score ev value
                   = Ok s'').
Proof.
  intros H. apply updateFees_Ok_inv in H as (_ & ->).
  split; [reflexivity|]. split; [reflexivity|]. split.
  - intros e' target t score ev value Hs Hv. unfold reportThreat.
    simpl_state. apply N.leb_le in Hs as ->. apply N.leb_gt in Hv as ->.
    reflexivity.
  - intros e' target t score ev value Hs Hv Ht Hev Hroom. eexists.
    apply reportThreat_Ok; assumption.
Qed.

(** An instance on the example chain. *)
Lemma updateFees_gates_reports_witness :
  exists s',
    updateFees (account 1) genesis 5 2 = Ok s' /\
    reportThreat counter_id (account 2) s' 7 PHISHING 50 "QmEvidence" 4
      = Err (Revert "Insufficient fee") /\
    exists s'', reportThreat counter_id (account 2) s' 7 PHISHING 50
                  "QmEvidence" 5 = Ok s''.
Proof.
  eexists. split; [vm_compute; reflexivity|].
  destruct (updateFees_gates_reports counter_id (account 1) genesis 5 2 _
              eq_refl) as (_ & _ & Hlow & Hok).
  split.
  - apply Hlow; vm_compute; first [reflexivity | discriminate].
  - apply Hok; try discriminate;
      repeat split; vm_compute; first [reflexivity | discriminate].
Defined.

(** X6. [emergencyWithdraw] called by the owner empties the balance and
    leaves every other field of the ledger as it was when the owner's account
    accepts the payment, and fails with the whole call rolled back when it
    refuses it. *)
Theorem emergencyWithdraw_outcomes (e : Env) (s : State) :
  msg_sender e = owner s ->
  (accepts_transfer e (owner s) = true ->
   exists s', emergencyWithdraw e s = Ok s' /\ balance s' = 0 /\
     contractReputations s' = contractReputations s /\
     threatReports s' = threatReports s /\ validators s' = validators s /\
     reporterScores s' = reporterScores s /\ metrics s' = metrics s /\
     reportIdCounter s' = reportIdCounter s /\
     reportFee s' = reportFee s /\ validationReward s' = validationReward s /\
     owner s' = owner s /\ events s' = events s) /\
  (accepts_transfer e (owner s) = false ->
   emergencyWithdraw e s = Err TransferFailed).
Proof.
  intros Ho. unfold emergencyWithdraw. rewrite onlyOwner_owner by assumption.
  run_bind. split; intros ->; [|reflexivity].
  eexists. split; [reflexivity|]. repeat split.
Qed.

(** An instance on the example chain. *)
Lemma emergencyWithdraw_outcomes_witness :
  (exists s', emergencyWithdraw (account 1) after_report = Ok s' /\
              balance s' = 0) /\
  emergencyWithdraw (refusing 1) after_report = Err TransferFailed.
Proof.
  split.
  - destruct (proj1 (emergencyWithdraw_outcomes (account 1) after_report
                       eq_refl) eq_refl) as (s' & H & Hb & _).
    exists s'. split; assumption.
  - apply (emergencyWithdraw_outcomes (refusing 1) after_report eq_refl).
    reflexivity.
Defined.

(** ** What a report changes and what it leaves alone *)

(** X7. A successful [reportThreat] keeps the whole amount paid (also what
    exceeds the fee), raises the score of the caller by one up to the cap of
    100, stamps the target's entry with the block time, and leaves alone the
    scores of all other identities, the entries of all other targets, the
    validator set, the owner, the fees and the validation counters. *)
Theorem reportThreat_keeps_payment_and_frame (reportIdOf : hash) (e : Env)
    (s : State) (target : address) (t : ThreatType) (score : uint256)
    (ev : string) (value : uint256) (s' : State) :
  reportThreat reportIdOf e s target t score ev value = Ok s' ->
  balance s' = balance s + value /\
  rd (reporterScores s') (msg_sender e) =
    N.min (rd (reporterScores s) (msg_sender e) + 1)
      (N.max (rd (reporterScores s) (msg_sender e)) 100) /\
  (forall a, a <> msg_sender e ->
     rd (reporterScores s') a = rd (reporterScores s) a) /\
  (forall a, a <> target ->
     rd (contractReputations s') a = rd (contractReputations s) a) /\
  validators s' = validators s /\ owner s' = owner s /\
  reportFee s' = reportFee s /\ validationReward s' = validationReward s /\
  validatedReports (metrics s') = validatedReports (metrics s) /\
  falsePositives (metrics s') = falsePositives (metrics s) /\
  lastUpdated (rd (contractReputations s') target) = block_timestamp e.
Proof.
  intros H. apply reportThreat_Ok_inv in H as (_ & _ & _ & _ & ->).
  unfold report_outcome. simpl_state.
  split; [reflexivity|]. split; [|split; [|split]].
  - destruct (N.ltb_spec (rd (reporterScores s) (msg_sender e)) 100).
    + rewrite rd_insert_eq. lia.
    + lia.
  - intros a Ha. destruct (_ <? 100); [|reflexivity].
    apply rd_insert_ne. congruence.
  - intros a Ha. apply rd_insert_ne. congruence.
  - rewrite rd_insert_eq. repeat split.
Qed.

(** An instance on the example chain. *)
Lemma reportThreat_keeps_payment_and_frame_witness :
  balance after_report = FEE /\ rd (reporterScores after_report) 1 = 100.
Proof.
  destruct (reportThreat_keeps_payment_and_frame counter_id (account 2)
              genesis 7 HONEYPOT 85 "QmEvidence" FEE after_report)
    as (Hb & _ & Hs & _).
  - vm_compute. reflexivity.
  - split; [exact Hb|]. rewrite (Hs 1) by discriminate.
    vm_compute. reflexivity.
Defined.

(** ** The reward of a validation *)

(** X8. A successful [validateReport] pays exactly [validationReward] when
    the ledger holds at least that much (and then the validator accepted the
    payment), and pays nothing otherwise; it leaves alone the reputations,
    the validator set, the fees, the report counter, [totalContracts], the
    owner, the log, every other report and the score of every identity but
    the reporter. *)
Theorem validateReport_pays_only_when_funded (e : Env) (s : State)
    (id : bytes32) (isValid : bool) (s' : State) :
  validateReport e s id isValid = Ok s' ->
  (validationReward s <= balance s ->
   balance s' = balance s - validationReward s /\
   accepts_transfer e (msg_sender e) = true) /\
  (balance s < validationReward s -> balance s' = balance s) /\
  contractReputations s' = contractReputations s /\
  validators s' = validators s /\ reportIdCounter s' = reportIdCounter s /\
  reportFee s' = reportFee s /\ validationReward s' = validationReward s /\
  totalContracts (metrics s') = totalContracts (metrics s) /\
  owner s' = owner s /\ events s' = events s /\
  (forall id', id' <> id ->
     rd (threatReports s') id' = rd (threatReports s) id') /\
  (forall a, a <> reporter (rd (threatReports s) id) ->
     rd (reporterScores s') a = rd (reporterScores s) a).
Proof.
  intros H. apply validateReport_Ok_inv in H as (_ & _ & _ & _ & Hpay & ->).
  unfold validation_outcome. simpl_state.
  split; [|split].
  - intros Hle. split; [|auto]. apply N.leb_le in Hle as ->. reflexivity.
  - intros Hlt. apply N.leb_gt in Hlt as ->. reflexivity.
  - repeat split; try (destruct isValid; reflexivity).
    + intros id' Hne. apply rd_insert_ne. congruence.
    + intros a Ha.
      destruct isValid; destruct (_ <? _); try reflexivity;
        apply rd_insert_ne; congruence.
Qed.

(** An instance on the example chain. *)
Lemma validateReport_pays_only_when_funded_witness :
  exists s', validateReport (account 1) after_report 1 true = Ok s' /\
             balance s' = 500000000000000.
Proof.
  assert (H : validateReport (account 1) after_report 1 true
              = Ok (validation_outcome after_report 1 true))
    by (vm_compute; reflexivity).
  exists (validation_outcome after_report 1 true). split; [exact H|].
  destruct (validateReport_pays_only_when_funded (account 1) after_report 1
              true _ H) as (Hpaid & _).
  destruct Hpaid as [Hb _]; [vm_compute; discriminate|].
  rewrite Hb. vm_compute. reflexivity.
Defined.

(** X9. When the ledger holds less than the reward, a validation that is
    otherwise in order succeeds without payment, also for a validator whose
    account would refuse one: the balance is unchanged and the report is
    marked validated. *)
Theorem reward_shortfall_is_not_fatal (e : Env) (s : State) (id : bytes32)
    (isValid : bool) :
  rd (validators s) (msg_sender e) = true ->
  reporter (rd (threatReports s) id) <> 0 ->
  validated (rd (threatReports s) id) = false ->
  validate_headroom s id ->
  (isValid = false ->
   rd (reporterScores s) (reporter (rd (threatReports s) id)) = 0 \/
   5 <= rd (reporterScores s) (reporter (rd (threatReports s) id))) ->
  balance s < validationReward s ->
  exists s', validateReport e s id isValid = Ok s' /\
             balance s' = balance s /\
             validated (rd (threatReports s') id) = true.
Proof.
  intros Hv Hr Hnv Hroom Hscore Hlow.
  rewrite (validateReport_Ok e s id isValid Hv Hr Hnv Hroom Hscore).
  apply N.leb_gt in Hlow. rewrite Hlow. cbn [andb].
  eexists. split; [reflexivity|]. unfold validation_outcome. simpl_state.
  rewrite Hlow, rd_insert_eq. split; reflexivity.
Qed.

(** An instance on the example chain. *)
Lemma reward_shortfall_is_not_fatal_witness :
  exists s', validateReport (refusing 1) (set_balance 0 after_report) 1 true
               = Ok s' /\
             balance s' = 0 /\ validated (rd (threatReports s') 1) = true.
Proof.
  apply (reward_shortfall_is_not_fatal (refusing 1)
           (set_balance 0 after_report) 1 true).
  - vm_compute. reflexivity.
  - vm_compute. discriminate.
  - vm_compute. reflexivity.
  - repeat split; vm_compute; reflexivity.
  - discriminate.
  - vm_compute. reflexivity.
Defined.

(** ** A report from filing to validation *)

(** X10. A successful [reportThreat] by a non-zero caller stores, under the
    identifier hashed from the counter before the call, a report with the
    caller as reporter, the submitted type, score and evidence, the block
    time, not validated and with no validation counted, and advances the
    counter by one.  Every validator (the reporter itself included) whose
    reward can be paid can then confirm that report. *)
Theorem filed_report_can_be_validated (reportIdOf : hash) (e : Env)
    (s : State) (target : address) (t : ThreatType) (score : uint256)
    (ev : string) (value : uint256) (s1 : State) :
  let id :=
    reportIdOf (msg_sender e) target t (block_timestamp e)
      (reportIdCounter s) in
  reportThreat reportIdOf e s target t score ev value = Ok s1 ->
  msg_sender e <> 0 ->
  rd (threatReports s1) id =
    mkThreatReport (msg_sender e) t score ev (block_timestamp e) false 0 /\
  reportIdCounter s1 = reportIdCounter s + 1 /\
  (forall e', rd (validators s) (msg_sender e') = true ->
     reward_payable e' s1 -> validatedReports (metrics s) < MAX_UINT256 ->
     falsePositives (metrics s) < MAX_UINT256 ->
     exists s2, validateReport e' s1 id true = Ok s2 /\
                validated (rd (threatReports s2) id) = true /\
                reporter (rd (threatReports s2) id) = msg_sender e).
Proof.
  cbn zeta. intros H Hsender.
  apply reportThreat_Ok_inv in H as (_ & _ & _ & _ & ->).
  assert (Hrep : rd (threatReports
                       (report_outcome reportIdOf e s target t score ev value))
                   (reportIdOf (msg_sender e) target t (block_timestamp e)
                      (reportIdCounter s)) =
                 mkThreatReport (msg_sender e) t score ev (block_timestamp e)
                   false 0).
  { unfold report_outcome. simpl_state. apply rd_insert_eq. }
  split; [exact Hrep|]. split; [reflexivity|].
  intros e' Hv Hpay Hvr Hfp.
  set (s1 := report_outcome reportIdOf e s target t score ev value) in *.
  set (id := reportIdOf (msg_sender e) target t (block_timestamp e)
               (reportIdCounter s)) in *.
  assert (Hroom : validate_headroom s1 id).
  { unfold validate_headroom. rewrite Hrep. simpl_state.
    pose proof MAX_UINT256_large. split; [lia|]. split; assumption. }
  assert (Hr : reporter (rd (threatReports s1) id) <> 0)
    by (rewrite Hrep; exact Hsender).
  assert (Hnv : validated (rd (threatReports s1) id) = false)
    by (rewrite Hrep; reflexivity).
  assert (Hscore : true = false ->
            rd (reporterScores s1) (reporter (rd (threatReports s1) id)) = 0
            \/ 5 <= rd (reporterScores s1)
                      (reporter (rd (threatReports s1) id)))
    by discriminate.
  rewrite (validateReport_Ok e' s1 id true Hv Hr Hnv Hroom Hscore).
  assert (Hgo : (validationReward s1 <=? balance s1)
                && negb (accepts_transfer e' (msg_sender e')) = false).
  { destruct Hpay as [Hlow| ->].
    - apply N.leb_gt in Hlow as ->. reflexivity.
    - apply andb_false_r. }
  rewrite Hgo. eexists. split; [reflexivity|].
  unfold validation_outcome. simpl_state. rewrite rd_insert_eq. simpl_state.
  rewrite Hrep. split; reflexivity.
Qed.

(** An instance on the example chain. *)
Lemma filed_report_can_be_validated_witness :
  exists s2, validateReport (account 1) after_report 1 true = Ok s2 /\
             validated (rd (threatReports s2) 1) = true /\
             reporter (rd (threatReports s2) 1) = 2.
Proof.
  destruct (filed_report_can_be_validated counter_id (account 2) genesis 7
              HONEYPOT 85 "QmEvidence" FEE after_report) as (_ & _ & H).
  - vm_compute. reflexivity.
  - vm_compute. discriminate.
  - apply (H (account 1)).
    + vm_compute. reflexivity.
    + right. reflexivity.
    + vm_compute. reflexivity.
    + vm_compute. reflexivity.
Defined.

(** X11. A validation, whatever its verdict, does not change what
    [getRiskAnalysis] and [isHighRiskContract] return for any target: a
    report judged invalid still counts in the average. *)
Theorem validation_leaves_risk_analysis (e : Env) (s : State) (id : bytes32)
    (isValid : bool) (s' : State) :
  validateReport e s id isValid = Ok s' ->
  forall a, getRiskAnalysis s' a = getRiskAnalysis s a /\
            isHighRiskContract s' a = isHighRiskContract s a.
Proof.
  intros H a. apply validateReport_Ok_inv in H as (_ & _ & _ & _ & _ & ->).
  split; reflexivity.
Qed.

(** An instance on the example chain. *)
Lemma validation_leaves_risk_analysis_witness :
  getRiskAnalysis (validation_outcome after_report 1 true) 7
    = getRiskAnalysis after_report 7.
Proof.
  apply (validation_leaves_risk_analysis (account 1) after_report 1 true
           (validation_outcome after_report 1 true)).
  vm_compute. reflexivity.
Defined.

(** ** The reasons of the rejections *)

(** X12. [reportThreat] checks in this order: the score (by the modifier,
    before the body), the fee, the target, the evidence.  The reason given is
    that of the first check that fails. *)
Theorem reportThreat_reasons_in_order (reportIdOf : hash) (e : Env)
    (s : State) (target : address) (t : ThreatType) (score : uint256)
    (ev : string) (value : uint256) :
  (MAX_RISK_SCORE < score ->
   reportThreat reportIdOf e s target t score ev value
     = Err (Revert "Risk score exceeds maximum")) /\
  (score <= MAX_RISK_SCORE -> value < reportFee s ->
   reportThreat reportIdOf e s target t score ev value
     = Err (Revert "Insufficient fee")) /\
  (score <= MAX_RISK_SCORE -> reportFee s <= value -> target = 0 ->
   reportThreat reportIdOf e s target t score ev value
     = Err (Revert "Invalid contract address")) /\
  (score <= MAX_RISK_SCORE -> reportFee s <= value -> target <> 0 ->
   ev = EmptyString ->
   reportThreat reportIdOf e s target t score ev value
     = Err (Revert "Evidence required")).
Proof.
  unfold reportThreat. simpl_state. repeat split.
  - intros H. apply N.leb_gt in H as ->. reflexivity.
  - intros H1 H2. apply N.leb_le in H1 as ->. apply N.leb_gt in H2 as ->.
    reflexivity.
  - intros H1 H2 ->. apply N.leb_le in H1 as ->. apply N.leb_le in H2 as ->.
    reflexivity.
  - intros H1 H2 H3 ->. apply N.leb_le in H1 as ->.
    apply N.leb_le in H2 as ->. apply N.eqb_neq in H3 as ->. reflexivity.
Qed.

(** An instance on the example chain. *)
Lemma reportThreat_reasons_in_order_witness :
  reportThreat counter_id (account 2) genesis 0 HONEYPOT 150 EmptyString 0
    = Err (Revert "Risk score exceeds maximum") /\
  reportThreat counter_id (account 2) genesis 0 HONEYPOT 50 EmptyString 0
    = Err (Revert "Insufficient fee").
Proof.
  split.
  - apply (reportThreat_reasons_in_order counter_id (account 2) genesis 0
             HONEYPOT 150 EmptyString 0). vm_compute. reflexivity.
  - apply (reportThreat_reasons_in_order counter_id (account 2) genesis 0
             HONEYPOT 50 EmptyString 0); vm_compute;
      first [reflexivity | discriminate].
Defined.

(** X13. [validateReport] checks in this order: the caller is a validator
    (by the modifier), the report exists, the report is not yet validated.
    A caller that is no validator is rejected whatever the state of the
    report. *)
Theorem validateReport_reasons_in_order (e : Env) (s : State) (id : bytes32)
    (isValid : bool) :
  (rd (validators s) (msg_sender e) = false ->
   validateReport e s id isValid = Err (Revert "Not authorized validator")) /\
  (rd (validators s) (msg_sender e) = true ->
   reporter (rd (threatReports s) id) = 0 ->
   validateReport e s id isValid = Err (Revert "Report does not exist")) /\
  (rd (validators s) (msg_sender e) = true ->
   reporter (rd (threatReports s) id) <> 0 ->
   validated (rd (threatReports s) id) = true ->
   validateReport e s id isValid = Err (Revert "Report already validated")).
Proof.
  split; [|split].
  - apply validateReport_not_validator.
  - apply validateReport_unknown.
  - apply validateReport_already.
Qed.

(** An instance on the example chain. *)
Lemma validateReport_reasons_in_order_witness :
  validateReport (account 2) after_report 1 true
    = Err (Revert "Not authorized validator") /\
  validateReport (account 1) after_report 9 true
    = Err (Revert "Report does not exist") /\
  validateReport (account 1) (validation_outcome after_report 1 true) 1 false
    = Err (Revert "Report already validated").
Proof.
  split; [|split].
  - apply (validateReport_reasons_in_order (account 2) after_report 1 true).
    vm_compute. reflexivity.
  - apply (validateReport_reasons_in_order (account 1) after_report 9 true);
      vm_compute; reflexivity.
  - apply (validateReport_reasons_in_order (account 1)
             (validation_outcome after_report 1 true) 1 false);
      vm_compute; first [reflexivity | discriminate].
Defined.

Lemma threat_total_bump (reputation reputation' : ContractReputation)
    (t : ThreatType) :
  threatCounts reputation' =
    set_count (threatCounts reputation) t (threatCounts reputation t + 1) ->
  threat_total reputation' = threat_total reputation + 1.
Proof.
  intros H. unfold threat_total, all_threat_types. cbn [foldr]. rewrite H.
  destruct t; rewrite set_count_eq, !set_count_ne by discriminate; lia.
Qed.

(** ** Invariants of the reachable ledgers *)

(** X14. On every reachable ledger the six per-type counters of a target add
    up to its report count. *)
Theorem threat_counters_sum_to_reportCount (reportIdOf : hash) (s : State) :
  reachable reportIdOf s -> reports_counted s.
Proof.
  induction 1 as [e|e c s s' _ IH H]; intros a.
  - unfold constructor. simpl_state. rewrite rd_empty. reflexivity.
  - apply call_reputations in H
      as [(-> & _)|(target & t & score & ev & value & _ & _ & ->)];
      [apply IH|].
    unfold report_outcome. simpl_state.
    destruct (N.eq_dec target a) as [->|Hne].
    + rewrite rd_insert_eq. simpl_state.
      erewrite threat_total_bump by reflexivity. rewrite IH. reflexivity.
    + rewrite rd_insert_ne by assumption. apply IH.
Qed.

(** An instance on the example chain. *)
Lemma threat_counters_sum_to_reportCount_witness :
  threat_total (rd (contractReputations after_report) 7)
    = reportCount (rd (contractReputations after_report) 7).
Proof.
  apply (threat_counters_sum_to_reportCount counter_id after_report).
  apply example_chain_reachable.
Defined.

Lemma targets_counted_inv (reportIdOf : hash) (s : State) :
  reachable reportIdOf s -> targets_counted s.
Proof.
  induction 1 as [e|e c s s' _ [IHn IHe] H].
  - split; [reflexivity|]. intros a rep. unfold constructor. simpl_state.
    rewrite lookup_empty. discriminate.
  - apply call_reputations in H
      as [(Hr & Ht & _)|(target & t & score & ev & value & _ & _ & ->)];
      [unfold targets_counted; rewrite Hr, Ht; split; assumption|].
    unfold targets_counted, report_outcome. simpl_state. split.
    + destruct (contractReputations s !! target) as [rep|] eqn:Hl.
      * assert (Hrd : rd (contractReputations s) target = rep)
          by (unfold rd; rewrite Hl; reflexivity).
        rewrite Hrd. pose proof (IHe target rep Hl) as Hrc.
        apply N.eqb_neq in Hrc as ->.
        rewrite map_size_insert_Some by eauto. exact IHn.
      * assert (Hrd : rd (contractReputations s) target = zero)
          by (unfold rd; rewrite Hl; reflexivity).
        rewrite Hrd. cbn [zero ContractReputation_zero reportCount N.eqb].
        rewrite map_size_insert_None by assumption. lia.
    + intros a rep.
      destruct (N.eq_dec target a) as [->|Hne].
      * rewrite lookup_insert_eq. intros [= <-]. simpl_state. lia.
      * rewrite lookup_insert_ne by assumption. apply IHe.
Qed.

(** X15. On every reachable ledger [totalContracts] is the number of entries
    of [contractReputations], and a target has an entry exactly when it has
    at least one report: [totalContracts] counts the distinct targets ever
    reported. *)
Theorem totalContracts_counts_reported_targets (reportIdOf : hash)
    (s : State) :
  reachable reportIdOf s ->
  N.of_nat (size (contractReputations s)) = totalContracts (metrics s) /\
  (forall a, is_Some (contractReputations s !! a) <->
             0 < reportCount (rd (contractReputations s) a)).
Proof.
  intros H. apply targets_counted_inv in H as [Hn He]. split; [exact Hn|].
  intros a. unfold rd.
  destruct (contractReputations s !! a) as [rep|] eqn:Hl.
  - pose proof (He a rep Hl). cbn. split; [lia | eauto].
  - cbn. split; [intros [? [=]] | lia].
Qed.

(** An instance on the example chain. *)
Lemma totalContracts_counts_reported_targets_witness :
  N.of_nat (size (contractReputations after_report))
    = totalContracts (metrics after_report).
Proof.
  apply (totalContracts_counts_reported_targets counter_id after_report).
  apply example_chain_reachable.
Defined.

Lemma totals_bounded_inv (reportIdOf : hash) (s : State) :
  reachable reportIdOf s -> totals_bounded s.
Proof.
  induction 1 as [e|e c s s' _ IH H]; intros a.
  - unfold constructor. simpl_state. rewrite rd_empty. cbn. lia.
  - apply call_reputations in H
      as [(-> & _)|(target & t & score & ev & value & _ & Hs & ->)];
      [apply IH|].
    unfold report_outcome. simpl_state.
    destruct (N.eq_dec target a) as [->|Hne].
    + rewrite rd_insert_eq. simpl_state. pose proof (IH a).
      unfold MAX_RISK_SCORE in Hs. lia.
    + rewrite rd_insert_ne by assumption. apply IH.
Qed.

(** X16. On every reachable ledger the risk score that [getRiskAnalysis]
    and [isHighRiskContract] return is at most [MAX_RISK_SCORE]. *)
Theorem risk_score_at_most_100_when_reachable (reportIdOf : hash)
    (s : State) (a : address) :
  reachable reportIdOf s ->
  exists ra isHighRisk,
    getRiskAnalysis s a = Ok ra /\
    isHighRiskContract s a = Ok (isHighRisk, ra_riskScore ra) /\
    ra_riskScore ra <= MAX_RISK_SCORE.
Proof.
  intros H. apply totals_bounded_inv in H. specialize (H a).
  do 2 eexists. split; [apply getRiskAnalysis_eq|].
  split; [apply isHighRiskContract_eq|]. cbn [ra_riskScore].
  unfold average, MAX_RISK_SCORE.
  destruct (N.ltb_spec 0 (reportCount (rd (contractReputations s) a)));
    [|lia].
  apply N.Div0.div_le_upper_bound. lia.
Qed.

(** An instance on the example chain. *)
Lemma risk_score_at_most_100_when_reachable_witness :
  exists ra isHighRisk,
    getRiskAnalysis after_report 7 = Ok ra /\
    isHighRiskContract after_report 7 = Ok (isHighRisk, ra_riskScore ra) /\
    ra_riskScore ra <= MAX_RISK_SCORE.
Proof.
  apply (risk_score_at_most_100_when_reachable counter_id after_report 7).
  apply example_chain_reachable.
Defined.

(** ** Scenarios *)

(** X17. After the first report against a target that has no entry,
    [getRiskAnalysis] returns the submitted score, one report, the level of
    that score and the reported type alone, and [isHighRiskContract] returns
    the score and whether it is above 70. *)
Theorem first_report_sets_analysis (reportIdOf : hash) (e : Env) (s : State)
    (target : address) (t : ThreatType) (score : uint256) (ev : string)
    (value : uint256) (s' : State) :
  contractReputations s !! target = None ->
  reportThreat reportIdOf e s target t score ev value = Ok s' ->
  getRiskAnalysis s' target =
    Ok (mkRiskAnalysis
          (if score <=? 30 then SAFE
           else if score <=? 70 then RISKY else DANGEROUS)
          score 1 [t]) /\
  isHighRiskContract s' target = Ok (70 <? score, score).
Proof.
  intros Hnone H. apply reportThreat_Ok_inv in H as (_ & _ & _ & _ & ->).
  assert (Hrd : rd (contractReputations s) target = zero)
    by (unfold rd; rewrite Hnone; reflexivity).
  assert (Havg : average (report_outcome reportIdOf e s target t score ev
                            value) target = score).
  { unfold average, report_outcome. simpl_state. rewrite rd_insert_eq, Hrd.
    cbn [zero ContractReputation_zero totalScore reportCount N.add N.ltb
         N.compare Pos.compare]. apply N.div_1_r. }
  rewrite getRiskAnalysis_eq, isHighRiskContract_eq, Havg.
  split; [|reflexivity]. do 2 f_equal.
  - unfold report_outcome. simpl_state. rewrite rd_insert_eq, Hrd.
    reflexivity.
  - unfold report_outcome. simpl_state. rewrite rd_insert_eq, Hrd.
    cbn [zero ContractReputation_zero threatCounts].
    unfold all_threat_types. cbn [List.filter].
    destruct t; rewrite set_count_eq, !set_count_ne by discriminate;
      reflexivity.
Qed.

(** An instance on the example chain. *)
Lemma first_report_sets_analysis_witness :
  getRiskAnalysis after_report 7 = Ok (mkRiskAnalysis DANGEROUS 85 1 [HONEYPOT])
  /\ isHighRiskContract after_report 7 = Ok (true, 85).
Proof.
  apply (first_report_sets_analysis counter_id (account 2) genesis 7 HONEYPOT
           85 "QmEvidence" FEE after_report).
  - reflexivity.
  - vm_compute. reflexivity.
Defined.

(** X18. A successful [reportThreat] appends two events, [ReputationUpdated]
    and then [ThreatReported], and the score and count the first carries are
    those [getRiskAnalysis] returns for the target afterwards. *)
Theorem events_agree_with_the_view (reportIdOf : hash) (e : Env) (s : State)
    (target : address) (t : ThreatType) (score : uint256) (ev : string)
    (value : uint256) (s' : State) :
  reportThreat reportIdOf e s target t score ev value = Ok s' ->
  exists ra,
    getRiskAnalysis s' target = Ok ra /\
    events s' =
      events s ++
      [ReputationUpdated target (ra_riskScore ra) (ra_reportCount ra);
       ThreatReported (msg_sender e) target t score ev].
Proof.
  intros H. apply reportThreat_Ok_inv in H as (_ & _ & _ & _ & ->).
  eexists. split; [apply getRiskAnalysis_eq|].
  cbn [ra_riskScore ra_reportCount]. unfold average, report_outcome.
  simpl_state. rewrite rd_insert_eq. simpl_state.
  replace (0 <? reportCount (rd (contractReputations s) target) + 1)
    with true by (symmetry; apply N.ltb_lt; lia).
  rewrite <- app_assoc. reflexivity.
Qed.

(** An instance on the example chain. *)
Lemma events_agree_with_the_view_witness :
  exists ra,
    getRiskAnalysis after_report 7 = Ok ra /\
    events after_report =
      events genesis ++
      [ReputationUpdated 7 (ra_riskScore ra) (ra_reportCount ra);
       ThreatReported 2 7 HONEYPOT 85 "QmEvidence"].
Proof.
  apply (events_agree_with_the_view counter_id (account 2) genesis 7 HONEYPOT
           85 "QmEvidence" FEE after_report).
  vm_compute. reflexivity.
Defined.

(** X19. Two reports filed one after the other by one caller in one block,
    against one target and with one threat type, are hashed with successive
    values of the counter.  The second is on record after the second call;
    the first is still on record if the hash gives the two inputs different
    identifiers, and is replaced by the second if it gives them the same. *)
Theorem successive_reports_use_successive_counters (reportIdOf : hash)
    (e : Env) (s : State) (target : address) (t : ThreatType)
    (score1 score2 : uint256) (ev1 ev2 : string) (value1 value2 : uint256)
    (s1 s2 : State) :
  let id1 :=
    reportIdOf (msg_sender e) target t (block_timestamp e)
      (reportIdCounter s) in
  let id2 :=
    reportIdOf (msg_sender e) target t (block_timestamp e)
      (reportIdCounter s + 1) in
  let report1 :=
    mkThreatReport (msg_sender e) t score1 ev1 (block_timestamp e) false 0 in
  let report2 :=
    mkThreatReport (msg_sender e) t score2 ev2 (block_timestamp e) false 0 in
  reportThreat reportIdOf e s target t score1 ev1 value1 = Ok s1 ->
  reportThreat reportIdOf e s1 target t score2 ev2 value2 = Ok s2 ->
  reportIdCounter s1 = reportIdCounter s + 1 /\
  reportIdCounter s2 = reportIdCounter s + 2 /\
  rd (threatReports s1) id1 = report1 /\
  rd (threatReports s2) id2 = report2 /\
  (id1 <> id2 -> rd (threatReports s2) id1 = report1) /\
  (id1 = id2 -> rd (threatReports s2) id1 = report2).
Proof.
  cbn zeta. intros H1 H2.
  apply reportThreat_Ok_inv in H1 as (_ & _ & _ & _ & ->).
  apply reportThreat_Ok_inv in H2 as (_ & _ & _ & _ & ->).
  unfold report_outcome. simpl_state.
  split; [reflexivity|]. split; [lia|]. split; [apply rd_insert_eq|].
  split; [apply rd_insert_eq|]. split.
  - intros Hne. rewrite rd_insert_ne by congruence. apply rd_insert_eq.
  - intros ->. apply rd_insert_eq.
Qed.

(** Two reports on the fresh ledger, with identifiers 1 and 2. *)
Lemma successive_reports_use_successive_counters_witness :
  exists s1 s2,
    reportThreat counter_id (account 2) genesis 7 HONEYPOT 80 "QmA" FEE
      = Ok s1 /\
    reportThreat counter_id (account 2) s1 7 HONEYPOT 90 "QmB" FEE = Ok s2 /\
    riskScore (rd (threatReports s2) 1) = 80 /\
    riskScore (rd (threatReports s2) 2) = 90.
Proof.
  assert (H1 : reportThreat counter_id (account 2) genesis 7 HONEYPOT 80
                 "QmA" FEE
               = Ok (report_outcome counter_id (account 2) genesis 7 HONEYPOT
                       80 "QmA" FEE))
    by (vm_compute; reflexivity).
  assert (H2 : reportThreat counter_id (account 2)
                 (report_outcome counter_id (account 2) genesis 7 HONEYPOT 80
                    "QmA" FEE) 7 HONEYPOT 90 "QmB" FEE
               = Ok (report_outcome counter_id (account 2)
                       (report_outcome counter_id (account 2) genesis 7
                          HONEYPOT 80 "QmA" FEE) 7 HONEYPOT 90 "QmB" FEE))
    by (vm_compute; reflexivity).
  destruct (successive_reports_use_successive_counters counter_id (account 2)
              genesis 7 HONEYPOT 80 90 "QmA" "QmB" FEE FEE _ _ H1 H2)
    as (_ & _ & _ & Hb & Ha & _).
  do 2 eexists. split; [exact H1|]. split; [exact H2|]. split.
  - refine (f_equal riskScore (Ha _)). vm_compute. discriminate.
  - exact (f_equal riskScore Hb).
Defined.

(** ** Deployment *)

(** X20. On the freshly deployed ledger the deployer is the owner and the only
    validator, the fees are 0.001 and 0.0005 ether, the metrics and the
    balance are zero, every target is SAFE with score 0 and no report, and
    the deployer can add any other non-zero address as a validator and set
    any fees. *)
Theorem deployer_administers_fresh_ledger (e : Env) :
  let s := constructor e in
  owner s = msg_sender e /\ rd (validators s) (msg_sender e) = true /\
  reportFee s = 1000000000000000 /\ validationReward s = 500000000000000 /\
  getSecurityMetrics s = mkSecurityMetrics 0 0 0 0 /\ balance s = 0 /\
  (forall a, a <> msg_sender e -> rd (validators s) a = false) /\
  (forall a, getRiskAnalysis s a = Ok (mkRiskAnalysis SAFE 0 0 [])) /\
  (forall v, v <> 0 -> v <> msg_sender e ->
     exists s', addValidator e s v = Ok s' /\ rd (validators s') v = true) /\
  (forall fee reward, exists s',
     updateFees e s fee reward = Ok s' /\ reportFee s' = fee /\
     validationReward s' = reward).
Proof.
  cbn zeta. unfold constructor, getSecurityMetrics. simpl_state.
  rewrite rd_insert_eq. do 6 (split; [reflexivity|]).
  split; [|split; [|split]].
  - intros a Ha. rewrite rd_insert_ne by congruence. apply rd_empty.
  - intros a. rewrite getRiskAnalysis_eq. unfold average. simpl_state.
    rewrite rd_empty. reflexivity.
  - intros v Hv Hne. unfold addValidator, onlyOwner. simpl_state.
    rewrite N.eqb_refl. apply N.eqb_neq in Hv as ->.
    rewrite rd_insert_ne, rd_empty by congruence.
    eexists. split; [reflexivity|]. simpl_state. apply rd_insert_eq.
  - intros fee reward. unfold updateFees, onlyOwner. simpl_state.
    rewrite N.eqb_refl. eexists. repeat split.
Qed.

(** ** What only some calls can do *)

(** X21. The balance of the ledger decreases only by [emergencyWithdraw],
    called by the owner and leaving nothing, or by [validateReport], called
    by a validator and paying exactly the reward. *)
Theorem funds_leave_only_by_reward_or_withdrawal (reportIdOf : hash)
    (e : Env) (c : Call) (s s' : State) :
  call reportIdOf e c s = Ok s' ->
  balance s' < balance s ->
  (c = EmergencyWithdraw /\ msg_sender e = owner s /\ balance s' = 0) \/
  (exists id isValid,
     c = ValidateReport id isValid /\
     rd (validators s) (msg_sender e) = true /\
     balance s' = balance s - validationReward s).
Proof.
  destruct c as [target t score ev value|id isValid|v|v|fee reward| |value
                 |newOwner| ]; cbn [call]; intros H Hlt.
  - apply reportThreat_Ok_inv in H as (_ & _ & _ & _ & ->).
    unfold report_outcome in Hlt. simpl_state. lia.
  - apply validateReport_Ok_inv in H as (Hv & _ & _ & _ & _ & ->).
    right. exists id, isValid. split; [reflexivity|]. split; [exact Hv|].
    unfold validation_outcome in *. simpl_state.
    destruct (validationReward s <=? balance s); [reflexivity | lia].
  - apply addValidator_Ok_inv in H as (_ & _ & _ & ->). simpl_state. lia.
  - apply removeValidator_Ok_inv in H as (_ & _ & ->). simpl_state. lia.
  - apply updateFees_Ok_inv in H as (_ & ->). simpl_state. lia.
  - apply emergencyWithdraw_Ok_inv in H as (Ho & _ & ->). left. auto.
  - injection H as <-. simpl_state. lia.
  - apply transferOwnership_Ok_inv in H as (_ & _ & ->). simpl_state. lia.
  - apply renounceOwnership_Ok_inv in H as (_ & ->). simpl_state. lia.
Qed.

(** An instance on the example chain. *)
Lemma funds_leave_only_by_reward_or_withdrawal_witness :
  (EmergencyWithdraw = EmergencyWithdraw /\
   msg_sender (account 1) = owner after_report /\
   balance (set_balance 0 after_report) = 0) \/
  (exists id isValid,
     EmergencyWithdraw = ValidateReport id isValid /\
     rd (validators after_report) (msg_sender (account 1)) = true /\
     balance (set_balance 0 after_report)
       = balance after_report - validationReward after_report).
Proof.
  apply (funds_leave_only_by_reward_or_withdrawal counter_id (account 1)
           EmergencyWithdraw after_report (set_balance 0 after_report)).
  - vm_compute. reflexivity.
  - vm_compute. reflexivity.
Defined.

(** X22. The validator flag of an address changes only through a call of the
    owner: [addValidator] for that address sets it, [removeValidator] for
    that address clears it. *)
Theorem validator_set_changes_only_by_owner (reportIdOf : hash) (e : Env)
    (c : Call) (s s' : State) (a : address) :
  call reportIdOf e c s = Ok s' ->
  rd (validators s') a <> rd (validators s) a ->
  msg_sender e = owner s /\
  ((c = AddValidator a /\ rd (validators s') a = true) \/
   (c = RemoveValidator a /\ rd (validators s') a = false)).
Proof.
  destruct c as [target t score ev value|id isValid|v|v|fee reward| |value
                 |newOwner| ]; cbn [call]; intros H Hne.
  - apply reportThreat_Ok_inv in H as (_ & _ & _ & _ & ->). contradiction.
  - apply validateReport_Ok_inv in H as (_ & _ & _ & _ & _ & ->).
    contradiction.
  - apply addValidator_Ok_inv in H as (Ho & _ & _ & ->). simpl_state.
    destruct (N.eq_dec v a) as [->|Hva].
    + rewrite rd_insert_eq. auto.
    + rewrite rd_insert_ne in Hne by assumption. contradiction.
  - apply removeValidator_Ok_inv in H as (Ho & _ & ->). simpl_state.
    destruct (N.eq_dec v a) as [->|Hva].
    + rewrite rd_insert_eq. auto.
    + rewrite rd_insert_ne in Hne by assumption. contradiction.
  - apply updateFees_Ok_inv in H as (_ & ->). contradiction.
  - apply emergencyWithdraw_Ok_inv in H as (_ & _ & ->). contradiction.
  - injection H as <-. contradiction.
  - apply transferOwnership_Ok_inv in H as (_ & _ & ->). contradiction.
  - apply renounceOwnership_Ok_inv in H as (_ & ->). contradiction.
Qed.

(** An instance on the example chain. *)
Lemma validator_set_changes_only_by_owner_witness :
  exists s',
    addValidator (account 1) genesis 3 = Ok s' /\
    msg_sender (account 1) = owner genesis /\
    ((AddValidator 3 = AddValidator 3 /\ rd (validators s') 3 = true) \/
     (AddValidator 3 = RemoveValidator 3 /\ rd (validators s') 3 = false)).
Proof.
  assert (H : addValidator (account 1) genesis 3
              = Ok (emit (ValidatorAdded 3)
                      (set_reporterScores
                         (<[3 := 100]> (reporterScores genesis))
                         (set_validators (<[3 := true]> (validators genesis))
                            genesis))))
    by (vm_compute; reflexivity).
  eexists. split; [exact H|].
  apply (validator_set_changes_only_by_owner counter_id (account 1)
           (AddValidator 3) genesis _ 3 H).
  vm_compute. discriminate.
Defined.

(** X23. No call decreases the report count, the cumulative score or a
    threat counter of a target, the count of targets, or the report
    counter. *)
Theorem reputation_only_grows (reportIdOf : hash) (e : Env) (c : Call)
    (s s' : State) (a : address) (t : ThreatType) :
  call reportIdOf e c s = Ok s' ->
  reportCount (rd (contractReputations s) a)
    <= reportCount (rd (contractReputations s') a) /\
  totalScore (rd (contractReputations s) a)
    <= totalScore (rd (contractReputations s') a) /\
  threatCounts (rd (contractReputations s) a) t
    <= threatCounts (rd (contractReputations s') a) t /\
  totalContracts (metrics s) <= totalContracts (metrics s') /\
  reportIdCounter s <= reportIdCounter s'.
Proof.
  intros H.
  assert (Hctr : reportIdCounter s <= reportIdCounter s').
  { destruct c; cbn [call] in H.
    - apply reportThreat_Ok_inv in H as (_ & _ & _ & _ & ->).
      unfold report_outcome. simpl_state. lia.
    - apply validateReport_Ok_inv in H as (_ & _ & _ & _ & _ & ->).
      reflexivity.
    - apply addValidator_Ok_inv in H as (_ & _ & _ & ->). reflexivity.
    - apply removeValidator_Ok_inv in H as (_ & _ & ->). reflexivity.
    - apply updateFees_Ok_inv in H as (_ & ->). reflexivity.
    - apply emergencyWithdraw_Ok_inv in H as (_ & _ & ->). reflexivity.
    - injection H as <-. reflexivity.
    - apply transferOwnership_Ok_inv in H as (_ & _ & ->). reflexivity.
    - apply renounceOwnership_Ok_inv in H as (_ & ->). reflexivity. }
  apply call_reputations in H
    as [(Hr & Ht & _)|(target & t' & score & ev & value & _ & _ & ->)].
  - rewrite Hr, Ht. repeat split; try reflexivity. exact Hctr.
  - unfold report_outcome in *. simpl_state.
    assert (Htc : totalContracts (metrics s) <=
                  (if reportCount (rd (contractReputations s) target) =? 0
                   then totalContracts (metrics s) + 1
                   else totalContracts (metrics s)))
      by (destruct (_ =? 0); lia).
    destruct (N.eq_dec target a) as [->|Hne].
    + rewrite rd_insert_eq. simpl_state.
      repeat split; try lia.
      destruct (decide (t' = t)) as [->|Htt].
      * rewrite set_count_eq. lia.
      * rewrite set_count_ne by assumption. reflexivity.
    + rewrite rd_insert_ne by assumption. repeat split; try lia; reflexivity.
Qed.

(** An instance on the example chain. *)
Lemma reputation_only_grows_witness :
  reportCount (rd (contractReputations genesis) 7)
    <= reportCount (rd (contractReputations after_report) 7) /\
  totalScore (rd (contractReputations genesis) 7)
    <= totalScore (rd (contractReputations after_report) 7) /\
  threatCounts (rd (contractReputations genesis) 7) HONEYPOT
    <= threatCounts (rd (contractReputations after_report) 7) HONEYPOT /\
  totalContracts (metrics genesis) <= totalContracts (metrics after_report) /\
  reportIdCounter genesis <= reportIdCounter after_report.
Proof.
  apply (reputation_only_grows counter_id (account 2)
           (ReportThreat 7 HONEYPOT 85 "QmEvidence" FEE) genesis after_report
           7 HONEYPOT).
  vm_compute. reflexivity.
Defined.
